(** * opm-material: dense automatic differentiation, [densead/Math.hpp]

    A shallow embedding of the elementary-function library of the dense
    forward-mode AD framework ([Opm::DenseAd]) and of the toolbox
    specialisation [MathToolbox<Evaluation<ValueT, numVars>>].

    The C++ code is a set of templates over [ValueType] and [numVars]; the
    embedding keeps both as parameters.  [ValueType] comes with the operators
    the templates apply to it ([ValueOps]) and with its own toolbox
    ([MathToolbox.t]).  Two instantiations are provided: IEEE binary64
    ([float], the kernel's primitive floats) for the operators, and the real
    numbers, the exact arithmetic the floating-point code approximates. *)

From Stdlib Require Import Reals Lra Floats.
From stdpp Require Import base fin vector list finite.

(** ** The scalar layer *)

(** The operators and literals that [Math.hpp] applies to a [ValueType]:
    the literals [0.0], [1] / [1.0] and [0.5], unary minus, the four
    arithmetic operators and the comparisons [<], [>] and [==]. *)
Class ValueOps (ValueType : Type) : Type := {
  v_zero : ValueType;
  v_one : ValueType;
  v_half : ValueType;
  v_neg : ValueType -> ValueType;
  v_add : ValueType -> ValueType -> ValueType;
  v_sub : ValueType -> ValueType -> ValueType;
  v_mul : ValueType -> ValueType -> ValueType;
  v_div : ValueType -> ValueType -> ValueType;
  v_lt : ValueType -> ValueType -> bool;
  v_gt : ValueType -> ValueType -> bool;
  v_eq : ValueType -> ValueType -> bool
}.

Declare Scope vt_scope.
Delimit Scope vt_scope with vt.
Notation "0" := v_zero : vt_scope.
Notation "1" := v_one : vt_scope.
Notation "- x" := (v_neg x) : vt_scope.
Infix "+" := v_add : vt_scope.
Infix "-" := v_sub : vt_scope.
Infix "*" := v_mul : vt_scope.
Infix "/" := v_div : vt_scope.
Infix "<?" := v_lt : vt_scope.
Infix ">?" := v_gt : vt_scope.
Infix "==?" := v_eq (at level 70) : vt_scope.

(** The traits class [MathToolbox<ValueType>] of [MathToolbox.hpp], as far as
    [Math.hpp] calls it.  [MathToolbox.hpp] is not part of the sources at
    hand, so the functions are parameters: every theorem about the generic
    code holds for whatever backend is plugged in. *)
Module MathToolbox.
Class t (ValueType Scalar : Type) : Type := {
  tan : ValueType -> ValueType;
  atan : ValueType -> ValueType;
  atan2 : ValueType -> ValueType -> ValueType;
  sin : ValueType -> ValueType;
  asin : ValueType -> ValueType;
  cos : ValueType -> ValueType;
  acos : ValueType -> ValueType;
  sqrt : ValueType -> ValueType;
  exp : ValueType -> ValueType;
  log : ValueType -> ValueType;
  pow : ValueType -> ValueType -> ValueType;
  isSame : ValueType -> ValueType -> Scalar -> bool
}.
End MathToolbox.

(** Laws of the comparison operators that the tie and sign arguments use.
    They hold for IEEE doubles (NaN and signed zeros included) and for the
    reals; both instances are proved below. *)
Class OrderLaws (ValueType : Type) {ops : ValueOps ValueType} : Prop := {
  eq_not_lt : forall a b : ValueType, (a ==? b)%vt = true -> (a <? b)%vt = false;
  eq_not_gt : forall a b : ValueType, (a ==? b)%vt = true -> (a >? b)%vt = false;
  neg_of_negative : forall a : ValueType, (a <? 0)%vt = true -> (- a <? 0)%vt = false
}.

(** *** IEEE binary64 *)

(** [double]: the operators are the kernel's primitive binary64 operations.
    On doubles [a > b] is [b < a]. *)
#[export] Instance double_ops : ValueOps float := {
  v_zero := 0%float;
  v_one := 1%float;
  v_half := 0.5%float;
  v_neg := PrimFloat.opp;
  v_add := PrimFloat.add;
  v_sub := PrimFloat.sub;
  v_mul := PrimFloat.mul;
  v_div := PrimFloat.div;
  v_lt := PrimFloat.ltb;
  v_gt := fun a b => PrimFloat.ltb b a;
  v_eq := PrimFloat.eqb
}.

(** *** Real numbers *)

Definition Rltb (a b : R) : bool := if Rlt_dec a b then true else false.
Definition Reqb (a b : R) : bool := if Req_dec_T a b then true else false.

#[export] Instance real_ops : ValueOps R := {
  v_zero := 0%R;
  v_one := 1%R;
  v_half := (/ 2)%R;
  v_neg := Ropp;
  v_add := Rplus;
  v_sub := Rminus;
  v_mul := Rmult;
  v_div := Rdiv;
  v_lt := Rltb;
  v_gt := fun a b => Rltb b a;
  v_eq := Reqb
}.

(** Modelled from the spec: the scalar backend over the reals
    ([MathToolbox<Scalar>] lives in [MathToolbox.hpp], which is not among the
    sources).  The spec asks of it "standard real-analysis semantics": the
    functions are the Standard Library's.  [Rpower] is the power function for
    a positive base; [real_atan2] is the angle of the point [(x, y)] for
    [atan2(y, x)]; [real_isSame] is equality within the tolerance. *)
Definition real_atan2 (y x : R) : R :=
  if Rlt_dec 0 x then Ratan.atan (y / x)
  else if Rlt_dec x 0 then
         (if Rlt_dec y 0 then Ratan.atan (y / x) - PI else Ratan.atan (y / x) + PI)
       else if Rlt_dec 0 y then PI / 2
            else if Rlt_dec y 0 then - (PI / 2) else 0.

Definition real_isSame (a b tolerance : R) : bool :=
  if Rle_dec (Rabs (a - b)) tolerance then true else false.

#[export] Instance real_toolbox : MathToolbox.t R R := {
  MathToolbox.tan := Rtrigo1.tan;
  MathToolbox.atan := Ratan.atan;
  MathToolbox.atan2 := real_atan2;
  MathToolbox.sin := Rtrigo_def.sin;
  MathToolbox.asin := Ratan.asin;
  MathToolbox.cos := Rtrigo_def.cos;
  MathToolbox.acos := Ratan.acos;
  MathToolbox.sqrt := R_sqrt.sqrt;
  MathToolbox.exp := Rtrigo_def.exp;
  MathToolbox.log := Rpower.ln;
  MathToolbox.pow := Rpower.Rpower;
  MathToolbox.isSame := real_isSame
}.

(** ** The AD value *)

(** [Evaluation<ValueType, numVars>]: a value and the [std::array] of its
    [numVars] partial derivatives (both public fields in [Math.hpp]). *)
Record Evaluation (ValueType : Type) (numVars : nat) : Type := mkEvaluation {
  value : ValueType;
  derivatives : vec ValueType numVars
}.
Arguments mkEvaluation {ValueType numVars} _ _.
Arguments value {ValueType numVars} _.
Arguments derivatives {ValueType numVars} _.

(** [Evaluation result;] -- the default constructor belongs to
    [Evaluation.hpp], which is not among the sources; what it leaves in the
    fields is a parameter.  Every function below overwrites all of it. *)
Class EvaluationStorage (ValueType : Type) (numVars : nat) : Type := {
  default_constructed : Evaluation ValueType numVars
}.

(** Two sample contents of a default-constructed object, one per scalar
    instance: all fields NaN for doubles, all fields zero for the reals. *)
Definition nan_storage (numVars : nat) : EvaluationStorage float numVars :=
  {| default_constructed := mkEvaluation nan (vreplicate numVars nan) |}.

Definition real_storage (numVars : nat) : EvaluationStorage R numVars :=
  {| default_constructed := mkEvaluation 0%R (vreplicate numVars 0%R) |}.

(** ** Statements on an [Evaluation] object

    The functions of [Math.hpp] declare a [result], assign its fields one by
    one and return it.  The embedding threads [result] through the same
    assignments. *)
Section Statements.
Context {ValueType : Type} {ops : ValueOps ValueType} {numVars : nat}.
Local Abbreviation Evaluation := (Evaluation ValueType numVars) (only parsing).

(** [result.value = v;] *)
Definition set_value (result : Evaluation) (v : ValueType) : Evaluation :=
  mkEvaluation v (derivatives result).

(** [result.derivatives[curVarIdx] = d;] *)
Definition set_derivative (result : Evaluation) (curVarIdx : fin numVars)
    (d : ValueType) : Evaluation :=
  mkEvaluation (value result) (vinsert curVarIdx d (derivatives result)).

(** [for (unsigned curVarIdx = 0; curVarIdx < result.derivatives.size();
    ++curVarIdx) body], the indices taken in increasing order. *)
Definition for_each_var (body : fin numVars -> Evaluation -> Evaluation)
    (result : Evaluation) : Evaluation :=
  foldl (fun result curVarIdx => body curVarIdx result) result (enum (fin numVars)).

(** [std::copy(x.derivatives.begin(), x.derivatives.end(),
    result.derivatives.begin());] *)
Definition copy_derivatives (x result : Evaluation) : Evaluation :=
  mkEvaluation (value result) (derivatives x).

(** [std::fill(result.derivatives.begin(), result.derivatives.end(), c);] *)
Definition fill_derivatives (c : ValueType) (result : Evaluation) : Evaluation :=
  mkEvaluation (value result) (vreplicate numVars c).

(** Modelled from the spec: [Evaluation::createConstant] of
    [Evaluation.hpp] (not among the sources) -- "a constant AD value has
    all derivatives equal to zero". *)
Definition createConstant (c : ValueType) : Evaluation :=
  mkEvaluation c (vreplicate numVars 0%vt).

(** Modelled from the spec: [result = c;], the assignment of a scalar to
    an [Evaluation] ([Evaluation.hpp], not among the sources).  For
    [result = 0.0] the spec has "the zero-value AD value (value 0, all
    derivatives 0)". *)
Definition assign_scalar (result : Evaluation) (c : ValueType) : Evaluation :=
  createConstant c.

(** Modelled from the spec: [base == c], the comparison of an
    [Evaluation] with a scalar ([Evaluation.hpp], not among the sources).
    The spec's zero-base case applies "whenever the base's scalar value is
    exactly zero": the comparison is that of the value fields. *)
Definition eq_scalar (x : Evaluation) (c : ValueType) : bool :=
  (value x ==? c)%vt.

(** The spec's protocol for a unary function [f] on [x = (v, d[0..n))]:
    the result [(f(v), f'(v)·d[0..n))], given [f(v)] and the scalar
    derivative factor [f'(v)]. *)
Definition chain_rule (f_v df_v : ValueType) (x : Evaluation) : Evaluation :=
  mkEvaluation f_v (vmap (fun d => (df_v * d)%vt) (derivatives x)).
End Statements.

(** ** [namespace Opm::DenseAd]: the elementary functions *)
Module DenseAd.
Section DenseAd.
Context {ValueType Scalar : Type} {ops : ValueOps ValueType}
        {toolbox : MathToolbox.t ValueType Scalar} {numVars : nat}
        {storage : EvaluationStorage ValueType numVars}.
Local Abbreviation Evaluation := (Evaluation ValueType numVars) (only parsing).
Local Open Scope vt_scope.

Definition abs (x : Evaluation) : Evaluation :=
  let result := default_constructed in
  if value x <? 0 then
    let result := set_value result (- value x) in
    for_each_var (fun curVarIdx result =>
      set_derivative result curVarIdx (- (derivatives x !!! curVarIdx))) result
  else
    let result := set_value result (value x) in
    for_each_var (fun curVarIdx result =>
      set_derivative result curVarIdx (derivatives x !!! curVarIdx)) result.

(** [min(const Evaluation&, const Evaluation&)] *)
Definition min (x1 x2 : Evaluation) : Evaluation :=
  let result := default_constructed in
  if value x1 <? value x2 then
    let result := set_value result (value x1) in
    copy_derivatives x1 result
  else
    let result := set_value result (value x2) in
    copy_derivatives x2 result.

(** [min(const Arg1ValueType&, const Evaluation&)], the plain scalar taken
    at the type [ValueType]. *)
Definition min_se (x1 : ValueType) (x2 : Evaluation) : Evaluation :=
  let result := default_constructed in
  if x1 <? value x2 then
    let result := set_value result x1 in
    fill_derivatives 0 result
  else
    let result := set_value result (value x2) in
    copy_derivatives x2 result.

(** [min(const Evaluation&, const Arg2ValueType&)] *)
Definition min_es (x1 : Evaluation) (x2 : ValueType) : Evaluation :=
  min_se x2 x1.

(** [max(const Evaluation&, const Evaluation&)] *)
Definition max (x1 x2 : Evaluation) : Evaluation :=
  let result := default_constructed in
  if value x1 >? value x2 then
    let result := set_value result (value x1) in
    copy_derivatives x1 result
  else
    let result := set_value result (value x2) in
    copy_derivatives x2 result.

(** [max(const Arg1ValueType&, const Evaluation&)] *)
Definition max_se (x1 : ValueType) (x2 : Evaluation) : Evaluation :=
  let result := default_constructed in
  if x1 >? value x2 then
    let result := set_value result x1 in
    fill_derivatives 0 result
  else
    let result := set_value result (value x2) in
    copy_derivatives x2 result.

(** [max(const Evaluation&, const Arg2ValueType&)] *)
Definition max_es (x1 : Evaluation) (x2 : ValueType) : Evaluation :=
  max_se x2 x1.

(** The loop shared by the unary functions:
    [result.derivatives[curVarIdx] = df_dx*x.derivatives[curVarIdx];] for
    every index. *)
Definition scale_derivatives (df_dx : ValueType) (x result : Evaluation) : Evaluation :=
  for_each_var (fun curVarIdx result =>
    set_derivative result curVarIdx (df_dx * derivatives x !!! curVarIdx)) result.

Definition tan (x : Evaluation) : Evaluation :=
  let result := default_constructed in
  let tmp := MathToolbox.tan (value x) in
  let result := set_value result tmp in
  let df_dx := 1 + tmp * tmp in
  scale_derivatives df_dx x result.

Definition atan (x : Evaluation) : Evaluation :=
  let result := default_constructed in
  let result := set_value result (MathToolbox.atan (value x)) in
  let df_dx := 1 / (1 + value x * value x) in
  scale_derivatives df_dx x result.

Definition atan2 (x y : Evaluation) : Evaluation :=
  let result := default_constructed in
  let result := set_value result (MathToolbox.atan2 (value x) (value y)) in
  let alpha := 1 / (1 + (value x * value x) / (value y * value y)) in
  for_each_var (fun curVarIdx result =>
    set_derivative result curVarIdx
      (alpha / (value y * value y)
       * (derivatives x !!! curVarIdx * value y
          - value x * derivatives y !!! curVarIdx))) result.

Definition sin (x : Evaluation) : Evaluation :=
  let result := default_constructed in
  let result := set_value result (MathToolbox.sin (value x)) in
  let df_dx := MathToolbox.cos (value x) in
  scale_derivatives df_dx x result.

Definition asin (x : Evaluation) : Evaluation :=
  let result := default_constructed in
  let result := set_value result (MathToolbox.asin (value x)) in
  let df_dx := 1 / MathToolbox.sqrt (1 - value x * value x) in
  scale_derivatives df_dx x result.

Definition cos (x : Evaluation) : Evaluation :=
  let result := default_constructed in
  let result := set_value result (MathToolbox.cos (value x)) in
  let df_dx := - MathToolbox.sin (value x) in
  scale_derivatives df_dx x result.

(** [- 1.0/sqrt(...)] parses as [(-1.0)/sqrt(...)]. *)
Definition acos (x : Evaluation) : Evaluation :=
  let result := default_constructed in
  let result := set_value result (MathToolbox.acos (value x)) in
  let df_dx := (- (1)) / MathToolbox.sqrt (1 - value x * value x) in
  scale_derivatives df_dx x result.

Definition sqrt (x : Evaluation) : Evaluation :=
  let result := default_constructed in
  let sqrt_x := MathToolbox.sqrt (value x) in
  let result := set_value result sqrt_x in
  let df_dx := v_half / sqrt_x in
  scale_derivatives df_dx x result.

Definition exp (x : Evaluation) : Evaluation :=
  let result := default_constructed in
  let exp_x := MathToolbox.exp (value x) in
  let result := set_value result exp_x in
  let df_dx := exp_x in
  scale_derivatives df_dx x result.

(** [pow(const Evaluation& base, const ExpType& exp)]: exponentiation of
    an arbitrary base with a fixed constant, the constant taken at the type
    [ValueType]. *)
Definition pow_es (base : Evaluation) (exp : ValueType) : Evaluation :=
  let result := default_constructed in
  let pow_x := MathToolbox.pow (value base) exp in
  let result := set_value result pow_x in
  if eq_scalar base 0 then
    assign_scalar result 0
  else
    let df_dx := pow_x / value base * exp in
    scale_derivatives df_dx base result.

(** [pow(const BaseType& base, const Evaluation& exp)]: exponentiation of
    a constant base with an arbitrary exponent. *)
Definition pow_se (base : ValueType) (exp : Evaluation) : Evaluation :=
  let result := default_constructed in
  if base ==? 0 then
    assign_scalar result 0
  else
    let lnBase := MathToolbox.log base in
    let result := set_value result (MathToolbox.exp (lnBase * value exp)) in
    let df_dx := lnBase * value result in
    scale_derivatives df_dx exp result.

(** [pow(const Evaluation& base, const Evaluation& exp)] *)
Definition pow (base exp : Evaluation) : Evaluation :=
  let result := default_constructed in
  if eq_scalar base 0 then
    assign_scalar result 0
  else
    let valuePow := MathToolbox.pow (value base) (value exp) in
    let result := set_value result valuePow in
    let f := value base in
    let g := value exp in
    let logF := MathToolbox.log f in
    for_each_var (fun curVarIdx result =>
      let fPrime := derivatives base !!! curVarIdx in
      let gPrime := derivatives exp !!! curVarIdx in
      set_derivative result curVarIdx
        ((g * fPrime / f + logF * gPrime) * valuePow)) result.

Definition log (x : Evaluation) : Evaluation :=
  let result := default_constructed in
  let result := set_value result (MathToolbox.log (value x)) in
  let df_dx := 1 / value x in
  scale_derivatives df_dx x result.
End DenseAd.
End DenseAd.

(** ** [MathToolbox<Evaluation<ValueT, numVars>>] *)
Module EvaluationToolbox.
Section EvaluationToolbox.
Context {ValueType Scalar : Type} {ops : ValueOps ValueType}
        {InnerToolbox : MathToolbox.t ValueType Scalar} {numVars : nat}
        {storage : EvaluationStorage ValueType numVars}.
Local Abbreviation Evaluation := (Evaluation ValueType numVars) (only parsing).

(** The loop of [isSame] from the indices [idxs] on: it returns [false] at
    the first derivative that differs and [true] when none is left. *)
Fixpoint isSame_derivatives (idxs : list (fin numVars)) (a b : Evaluation)
    (tolerance : Scalar) : bool :=
  match idxs with
  | [] => true
  | curVarIdx :: idxs' =>
      if negb (MathToolbox.isSame (derivatives a !!! curVarIdx)
                                  (derivatives b !!! curVarIdx) tolerance)
      then false
      else isSame_derivatives idxs' a b tolerance
  end.

Definition isSame (a b : Evaluation) (tolerance : Scalar) : bool :=
  if negb (MathToolbox.isSame (value a) (value b) tolerance) then false
  else isSame_derivatives (enum (fin numVars)) a b tolerance.

(** The forwarding wrappers: the toolbox of the AD type is again a
    [MathToolbox.t], with the same [Scalar], so that AD values nest. *)
#[export] Instance toolbox : MathToolbox.t Evaluation Scalar := {
  MathToolbox.tan := DenseAd.tan;
  MathToolbox.atan := DenseAd.atan;
  MathToolbox.atan2 := DenseAd.atan2;
  MathToolbox.sin := DenseAd.sin;
  MathToolbox.asin := DenseAd.asin;
  MathToolbox.cos := DenseAd.cos;
  MathToolbox.acos := DenseAd.acos;
  MathToolbox.sqrt := DenseAd.sqrt;
  MathToolbox.exp := DenseAd.exp;
  MathToolbox.log := DenseAd.log;
  MathToolbox.pow := DenseAd.pow;
  MathToolbox.isSame := isSame
}.
End EvaluationToolbox.
End EvaluationToolbox.

(** ** What an AD value stands for

    Over the reals, the meaning of component [i] of an AD value [x]: along
    independent variable [i], [x] holds the value and the derivative of a
    function [u] at the point [t]. *)
Definition carries {numVars : nat} (x : Evaluation R numVars) (i : fin numVars)
    (u : R -> R) (t : R) : Prop :=
  u t = value x /\ derivable_pt_lim u t (derivatives x !!! i).

(** * Properties *)

(** ** The loop over the derivative vector *)
Section LoopLemmas.
Context {ValueType : Type} {ops : ValueOps ValueType} {numVars : nat}.
Local Abbreviation Evaluation := (Evaluation ValueType numVars) (only parsing).

(** Running the loop body over the indices of [idxs] leaves [value]
    alone, writes [g j] at every visited index [j] and keeps the other
    components. *)
Lemma loop_over_indices (g : fin numVars -> ValueType)
    (idxs : list (fin numVars)) (result : Evaluation) :
  let result' :=
    foldl (fun result curVarIdx => set_derivative result curVarIdx (g curVarIdx))
          result idxs in
  value result' = value result /\
  forall j, derivatives result' !!! j =
            if decide (j ∈ idxs) then g j else derivatives result !!! j.
Proof.
  revert result. induction idxs as [|i idxs IH]; intros result; cbn zeta.
  - split; [reflexivity|]. intros j. rewrite decide_False; [reflexivity|].
    apply not_elem_of_nil.
  - cbn [foldl]. destruct (IH (set_derivative result i (g i))) as [Hv Hd].
    split; [exact Hv|]. intros j. rewrite Hd. cbn [set_derivative derivatives].
    destruct (decide (j ∈ idxs)) as [Hin|Hnin].
    + rewrite decide_True; [reflexivity|]. apply elem_of_cons. by right.
    + destruct (decide (i = j)) as [->|Hne].
      * rewrite vlookup_insert, decide_True; [reflexivity|]. apply elem_of_cons. by left.
      * rewrite vlookup_insert_ne by exact Hne.
        rewrite decide_False; [reflexivity|].
        intros Hin. apply elem_of_cons in Hin as [->|Hin]; congruence.
Qed.

(** The complete loop assigns every component. *)
Lemma for_each_var_set (g : fin numVars -> ValueType) (result : Evaluation) :
  for_each_var (fun curVarIdx result => set_derivative result curVarIdx (g curVarIdx))
               result
  = mkEvaluation (value result) (fun_to_vec g).
Proof.
  unfold for_each_var.
  destruct (loop_over_indices g (enum (fin numVars)) result) as [Hv Hd].
  cbn zeta in Hv, Hd.
  destruct (foldl _ result (enum (fin numVars))) as [v ds].
  cbn [value derivatives] in Hv, Hd.
  subst v. f_equal. apply vec_eq. intros j.
  rewrite Hd, lookup_fun_to_vec, decide_True; [reflexivity|]. apply elem_of_enum.
Qed.

(** Copying a vector component by component copies it. *)
Lemma fun_to_vec_lookup (ds : vec ValueType numVars) :
  fun_to_vec (fun j => ds !!! j) = ds.
Proof. apply vec_eq. intros j. by rewrite lookup_fun_to_vec. Qed.

Lemma fun_to_vec_map (f : ValueType -> ValueType) (ds : vec ValueType numVars) :
  fun_to_vec (fun j => f (ds !!! j)) = vmap f ds.
Proof. apply vec_eq. intros j. by rewrite lookup_fun_to_vec, vlookup_map. Qed.
End LoopLemmas.

(** ** The comparison laws of the two scalar instances *)

(** On the specification of binary64: two operands that compare equal
    compare equal the other way round. *)
Lemma SFcompare_Eq_sym (a b : spec_float) :
  SFcompare a b = Some Eq -> SFcompare b a = Some Eq.
Proof.
  destruct a as [sa|sa| |sa ma ea], b as [sb|sb| |sb mb eb]; cbn;
    try destruct sa; try destruct sb; try congruence.
  - destruct (Z.compare_spec ea eb) as [->| |]; try congruence.
    rewrite Z.compare_refl. fold (Pos.compare ma mb). fold (Pos.compare mb ma).
    rewrite (Pos.compare_antisym ma mb).
    destruct (Pos.compare ma mb); cbn; congruence.
  - destruct (Z.compare_spec ea eb) as [->| |]; try congruence.
    rewrite Z.compare_refl. fold (Pos.compare ma mb). fold (Pos.compare mb ma).
    rewrite (Pos.compare_antisym ma mb).
    destruct (Pos.compare ma mb); cbn; congruence.
Qed.

(** Doubles: [a == b] excludes [a < b] and [a > b]; the negation of a
    double below zero is not below zero. *)
#[export] Instance double_order_laws : OrderLaws float.
Proof.
  split; cbn [v_eq v_lt v_gt v_neg v_zero double_ops]; intros a.
  - intros b. rewrite FloatAxioms.eqb_spec, ltb_spec. unfold SFeqb, SFltb.
    destruct (SFcompare (Prim2SF a) (Prim2SF b)) as [[]|]; congruence.
  - intros b. rewrite FloatAxioms.eqb_spec, ltb_spec. unfold SFeqb, SFltb.
    intros Heq. rewrite (SFcompare_Eq_sym (Prim2SF a) (Prim2SF b)); [reflexivity|].
    destruct (SFcompare (Prim2SF a) (Prim2SF b)) as [[]|]; congruence.
  - rewrite !ltb_spec, opp_spec.
    change (Prim2SF 0%float) with (S754_zero false). unfold SFltb.
    destruct (Prim2SF a) as [s|s| |s m e]; cbn; try destruct s; cbn; congruence.
Qed.

Lemma Rltb_true (a b : R) : Rltb a b = true <-> (a < b)%R.
Proof. unfold Rltb. destruct (Rlt_dec a b); split; (congruence || tauto). Qed.

Lemma Rltb_false (a b : R) : Rltb a b = false <-> (b <= a)%R.
Proof. unfold Rltb. destruct (Rlt_dec a b); split; intros; (congruence || lra). Qed.

Lemma Reqb_true (a b : R) : Reqb a b = true <-> a = b.
Proof. unfold Reqb. destruct (Req_dec_T a b); split; (congruence || tauto). Qed.

#[export] Instance real_order_laws : OrderLaws R.
Proof.
  split; cbn [v_eq v_lt v_gt v_neg v_zero real_ops].
  - intros a b Heq%Reqb_true. apply Rltb_false. lra.
  - intros a b Heq%Reqb_true. apply Rltb_false. lra.
  - intros a Hlt%Rltb_true. apply Rltb_false. lra.
Qed.

(** ** [abs], [min] and [max]: which operand is returned *)
Section Selection.
Context {ValueType : Type} {ops : ValueOps ValueType} {numVars : nat}
        {storage : EvaluationStorage ValueType numVars}.
Local Abbreviation Evaluation := (Evaluation ValueType numVars) (only parsing).
Local Open Scope vt_scope.

Lemma abs_unfold (x : Evaluation) :
  DenseAd.abs x =
  if value x <? 0 then mkEvaluation (- value x) (vmap v_neg (derivatives x)) else x.
Proof.
  unfold DenseAd.abs. destruct x as [v ds]; cbn [value derivatives].
  destruct (v <? 0); cbn zeta; rewrite for_each_var_set; cbn [set_value value].
  - by rewrite fun_to_vec_map.
  - by rewrite fun_to_vec_lookup.
Qed.

Lemma min_unfold (x1 x2 : Evaluation) :
  DenseAd.min x1 x2 = if value x1 <? value x2 then x1 else x2.
Proof.
  unfold DenseAd.min. destruct x1, x2; cbn [value].
  by destruct (_ <? _).
Qed.

Lemma max_unfold (x1 x2 : Evaluation) :
  DenseAd.max x1 x2 = if value x1 >? value x2 then x1 else x2.
Proof.
  unfold DenseAd.max. destruct x1, x2; cbn [value].
  by destruct (_ >? _).
Qed.

(** C4. [min(s, x)] and [max(s, x)] for a plain scalar [s]: when the
    scalar wins the (strict) comparison the result is the value [s] with
    every derivative zero, otherwise it is [x], value and derivative vector
    unchanged. *)
Theorem min_max_scalar_select (s : ValueType) (x : Evaluation) :
  DenseAd.min_se s x
    = (if s <? value x then mkEvaluation s (vreplicate numVars 0) else x)
  /\ DenseAd.max_se s x
    = (if s >? value x then mkEvaluation s (vreplicate numVars 0) else x).
Proof.
  unfold DenseAd.min_se, DenseAd.max_se. destruct x as [v ds]; cbn [value].
  split; [by destruct (s <? v) | by destruct (s >? v)].
Qed.

(** C8. The scalar-second overloads delegate to the scalar-first ones:
    [min(x, s)] is [min(s, x)] and [max(x, s)] is [max(s, x)], value and
    derivative vector alike. *)
Theorem min_max_scalar_order (s : ValueType) (x : Evaluation) :
  DenseAd.min_es x s = DenseAd.min_se s x
  /\ DenseAd.max_es x s = DenseAd.max_se s x.
Proof. split; reflexivity. Qed.

Context {laws : OrderLaws ValueType}.

(** C3. [min(x1, x2)] is [x1], value and whole derivative vector, when
    [x1.value < x2.value], and [x2] otherwise; [max] likewise with [>].
    A tie [x1.value == x2.value] falls in the "otherwise" branch of both
    and yields [x2]. *)
Theorem min_max_select (x1 x2 : Evaluation) :
  DenseAd.min x1 x2 = (if value x1 <? value x2 then x1 else x2)
  /\ DenseAd.max x1 x2 = (if value x1 >? value x2 then x1 else x2)
  /\ ((value x1 ==? value x2) = true ->
      DenseAd.min x1 x2 = x2 /\ DenseAd.max x1 x2 = x2).
Proof.
  rewrite min_unfold, max_unfold. repeat split; try reflexivity.
  - by rewrite eq_not_lt.
  - by rewrite eq_not_gt.
Qed.

(** C9. In the tie case [s == x.value] of the mixed overloads the scalar
    does not win the strict comparison: [min(s, x)] and [max(s, x)] return
    [x], with its derivatives kept. *)
Theorem min_max_scalar_tie (s : ValueType) (x : Evaluation) :
  (s ==? value x) = true ->
  DenseAd.min_se s x = x /\ DenseAd.max_se s x = x.
Proof.
  intros Htie. destruct (min_max_scalar_select s x) as [-> ->].
  by rewrite eq_not_lt, eq_not_gt.
Qed.

(** C10. The value of [abs(x)] is never below zero, so a second [abs]
    takes the copying branch: [abs(abs(x)) = abs(x)], value and every
    derivative. *)
Theorem abs_idempotent (x : Evaluation) :
  (value (DenseAd.abs x) <? 0) = false
  /\ DenseAd.abs (DenseAd.abs x) = DenseAd.abs x.
Proof.
  assert (Hsign : (value (DenseAd.abs x) <? 0) = false).
  { rewrite abs_unfold. destruct (value x <? 0) eqn:Hneg; cbn [value].
    - by apply neg_of_negative.
    - exact Hneg. }
  split; [exact Hsign|].
  rewrite (abs_unfold (DenseAd.abs x)). by rewrite Hsign.
Qed.
End Selection.

(** ** The unary functions: chain rule *)
Section UnaryGeneric.
Context {ValueType Scalar : Type} {ops : ValueOps ValueType}
        {toolbox : MathToolbox.t ValueType Scalar} {numVars : nat}
        {storage : EvaluationStorage ValueType numVars}.
Local Abbreviation Evaluation := (Evaluation ValueType numVars) (only parsing).
Local Open Scope vt_scope.

(** The loop of the unary functions multiplies every derivative of [x] by
    [df_dx] and keeps the value already assigned to [result]. *)
Lemma scale_derivatives_chain (df_dx : ValueType) (x result : Evaluation) :
  DenseAd.scale_derivatives df_dx x result = chain_rule (value result) df_dx x.
Proof.
  unfold DenseAd.scale_derivatives, chain_rule.
  rewrite for_each_var_set. by rewrite fun_to_vec_map.
Qed.

(** What the nine unary functions compute, with the derivative factor as
    the code writes it. *)
Lemma unary_chain_rule_generic (x : Evaluation) :
  let v := value x in
  DenseAd.sin x = chain_rule (MathToolbox.sin v) (MathToolbox.cos v) x
  /\ DenseAd.cos x = chain_rule (MathToolbox.cos v) (- MathToolbox.sin v) x
  /\ DenseAd.tan x
     = chain_rule (MathToolbox.tan v) (1 + MathToolbox.tan v * MathToolbox.tan v) x
  /\ DenseAd.asin x
     = chain_rule (MathToolbox.asin v) (1 / MathToolbox.sqrt (1 - v * v)) x
  /\ DenseAd.acos x
     = chain_rule (MathToolbox.acos v) (- (1) / MathToolbox.sqrt (1 - v * v)) x
  /\ DenseAd.atan x = chain_rule (MathToolbox.atan v) (1 / (1 + v * v)) x
  /\ DenseAd.exp x = chain_rule (MathToolbox.exp v) (MathToolbox.exp v) x
  /\ DenseAd.log x = chain_rule (MathToolbox.log v) (1 / v) x
  /\ DenseAd.sqrt x = chain_rule (MathToolbox.sqrt v) (v_half / MathToolbox.sqrt v) x.
Proof.
  cbn zeta.
  unfold DenseAd.sin, DenseAd.cos, DenseAd.tan, DenseAd.asin, DenseAd.acos,
    DenseAd.atan, DenseAd.exp, DenseAd.log, DenseAd.sqrt; cbn zeta.
  repeat split; apply scale_derivatives_chain.
Qed.

(** [atan2] with the factors as the code writes them. *)
Lemma atan2_generic (x y : Evaluation) :
  let alpha := 1 / (1 + (value x * value x) / (value y * value y)) in
  DenseAd.atan2 x y =
  mkEvaluation (MathToolbox.atan2 (value x) (value y))
    (fun_to_vec (fun i =>
       alpha / (value y * value y)
       * (derivatives x !!! i * value y - value x * derivatives y !!! i))).
Proof. cbn zeta. unfold DenseAd.atan2; cbn zeta. by rewrite for_each_var_set. Qed.
End UnaryGeneric.

(** Over the reals the factors the code writes are the textbook ones. *)
Lemma real_factor_identities (v w : R) :
  (1 + Rtrigo1.tan v * Rtrigo1.tan v = 1 + Rtrigo1.tan v ^ 2
   /\ 1 / R_sqrt.sqrt (1 - v * v) = 1 / R_sqrt.sqrt (1 - v ^ 2)
   /\ (- (1)) / R_sqrt.sqrt (1 - v * v) = - (1 / R_sqrt.sqrt (1 - v ^ 2))
   /\ 1 / (1 + v * v) = 1 / (1 + v ^ 2)
   /\ / 2 / R_sqrt.sqrt v = 1 / (2 * R_sqrt.sqrt v)
   /\ 1 / (1 + (v * v) / (w * w)) = 1 / (1 + (v / w) ^ 2))%R.
Proof.
  replace (v ^ 2)%R with (v * v)%R by ring.
  repeat split; try reflexivity.
  - ring.
  - unfold Rdiv. ring.
  - unfold Rdiv. rewrite Rinv_mult. ring.
  - do 2 f_equal. unfold Rdiv. rewrite Rinv_mult. ring.
Qed.

(** C2. Every unary elementary function returns [(f(v), f'(v)*d[i])] for
    an operand [(v, d)].  First part: for any [ValueType] and backend, with
    the factor [f'(v)] as the code computes it ([1 + tan(v)*tan(v)],
    [0.5/sqrt(v)], ...).  Second part: over the reals these factors are
    [cos v], [-sin v], [1 + tan(v)^2], [1/sqrt(1-v^2)], [-1/sqrt(1-v^2)],
    [1/(1+v^2)], [exp v], [1/v] and [1/(2*sqrt v)]. *)
Theorem unary_chain_rule :
  (forall (ValueType Scalar : Type) (ops : ValueOps ValueType)
          (toolbox : MathToolbox.t ValueType Scalar) (numVars : nat)
          (storage : EvaluationStorage ValueType numVars)
          (x : Evaluation ValueType numVars),
     let v := value x in
     (DenseAd.sin x = chain_rule (MathToolbox.sin v) (MathToolbox.cos v) x
      /\ DenseAd.cos x = chain_rule (MathToolbox.cos v) (- MathToolbox.sin v) x
      /\ DenseAd.tan x
         = chain_rule (MathToolbox.tan v) (1 + MathToolbox.tan v * MathToolbox.tan v) x
      /\ DenseAd.asin x
         = chain_rule (MathToolbox.asin v) (1 / MathToolbox.sqrt (1 - v * v)) x
      /\ DenseAd.acos x
         = chain_rule (MathToolbox.acos v) (- (1) / MathToolbox.sqrt (1 - v * v)) x
      /\ DenseAd.atan x = chain_rule (MathToolbox.atan v) (1 / (1 + v * v)) x
      /\ DenseAd.exp x = chain_rule (MathToolbox.exp v) (MathToolbox.exp v) x
      /\ DenseAd.log x = chain_rule (MathToolbox.log v) (1 / v) x
      /\ DenseAd.sqrt x
         = chain_rule (MathToolbox.sqrt v) (v_half / MathToolbox.sqrt v) x)%vt)
  /\
  (forall (numVars : nat) (storage : EvaluationStorage R numVars)
          (x : Evaluation R numVars),
     let v := value x in
     (DenseAd.sin x = chain_rule (Rtrigo_def.sin v) (Rtrigo_def.cos v) x
      /\ DenseAd.cos x = chain_rule (Rtrigo_def.cos v) (- Rtrigo_def.sin v) x
      /\ DenseAd.tan x = chain_rule (Rtrigo1.tan v) (1 + Rtrigo1.tan v ^ 2) x
      /\ DenseAd.asin x = chain_rule (Ratan.asin v) (1 / R_sqrt.sqrt (1 - v ^ 2)) x
      /\ DenseAd.acos x
         = chain_rule (Ratan.acos v) (- (1 / R_sqrt.sqrt (1 - v ^ 2))) x
      /\ DenseAd.atan x = chain_rule (Ratan.atan v) (1 / (1 + v ^ 2)) x
      /\ DenseAd.exp x = chain_rule (Rtrigo_def.exp v) (Rtrigo_def.exp v) x
      /\ DenseAd.log x = chain_rule (Rpower.ln v) (1 / v) x
      /\ DenseAd.sqrt x
         = chain_rule (R_sqrt.sqrt v) (1 / (2 * R_sqrt.sqrt v)) x)%R).
Proof.
  split.
  - intros. apply unary_chain_rule_generic.
  - intros numVars storage x v.
    destruct (unary_chain_rule_generic x)
      as (Hsin & Hcos & Htan & Hasin & Hacos & Hatan & Hexp & Hlog & Hsqrt).
    destruct (real_factor_identities v v) as (Etan & Easin & Eacos & Eatan & Esqrt & _).
    rewrite <- Etan, <- Eacos, <- Easin, <- Eatan, <- Esqrt.
    repeat split; assumption.
Qed.

(** C7. [atan2(x, y)] has the value [atan2(x.value, y.value)] and, at
    every index [i], the derivative
    [alpha / y.value^2 * (x.derivatives[i]*y.value - x.value*y.derivatives[i])].
    First part: for any [ValueType], with [alpha] and the square as the code
    computes them, [1/(1 + (x*x)/(y*y))] and [y*y].  Second part: over the
    reals [alpha] is [1/(1 + (x/y)^2)].  Neither part singles out
    [y.value = 0]: the one formula is applied to every operand. *)
Theorem atan2_chain_rule :
  (forall (ValueType Scalar : Type) (ops : ValueOps ValueType)
          (toolbox : MathToolbox.t ValueType Scalar) (numVars : nat)
          (storage : EvaluationStorage ValueType numVars)
          (x y : Evaluation ValueType numVars),
     (let alpha := 1 / (1 + (value x * value x) / (value y * value y)) in
      value (DenseAd.atan2 x y) = MathToolbox.atan2 (value x) (value y)
      /\ forall i : fin numVars,
           derivatives (DenseAd.atan2 x y) !!! i
           = alpha / (value y * value y)
             * (derivatives x !!! i * value y - value x * derivatives y !!! i))%vt)
  /\
  (forall (numVars : nat) (storage : EvaluationStorage R numVars)
          (x y : Evaluation R numVars),
     (let alpha := 1 / (1 + (value x / value y) ^ 2) in
      value (DenseAd.atan2 x y) = real_atan2 (value x) (value y)
      /\ forall i : fin numVars,
           derivatives (DenseAd.atan2 x y) !!! i
           = alpha / value y ^ 2
             * (derivatives x !!! i * value y - value x * derivatives y !!! i))%R).
Proof.
  split.
  - intros. subst alpha. rewrite atan2_generic; cbn [value derivatives].
    split; [reflexivity|]. intros i. by rewrite lookup_fun_to_vec.
  - intros numVars storage x y alpha. subst alpha.
    rewrite atan2_generic; cbn [value derivatives].
    split; [reflexivity|]. intros i. rewrite lookup_fun_to_vec.
    destruct (real_factor_identities (value x) (value y)) as (_ & _ & _ & _ & _ & <-).
    replace (value y ^ 2)%R with (value y * value y)%R by ring.
    reflexivity.
Qed.

(** ** The three [pow] overloads *)
Section PowGeneric.
Context {ValueType Scalar : Type} {ops : ValueOps ValueType}
        {toolbox : MathToolbox.t ValueType Scalar} {numVars : nat}
        {storage : EvaluationStorage ValueType numVars}.
Local Abbreviation Evaluation := (Evaluation ValueType numVars) (only parsing).
Local Open Scope vt_scope.

Lemma pow_es_unfold (base : Evaluation) (exp : ValueType) :
  DenseAd.pow_es base exp =
  if value base ==? 0 then createConstant 0
  else let pow_x := MathToolbox.pow (value base) exp in
       chain_rule pow_x (pow_x / value base * exp) base.
Proof.
  unfold DenseAd.pow_es, eq_scalar, assign_scalar; cbn zeta.
  destruct (value base ==? 0); [reflexivity|]. apply scale_derivatives_chain.
Qed.

Lemma pow_se_unfold (base : ValueType) (exp : Evaluation) :
  DenseAd.pow_se base exp =
  if base ==? 0 then createConstant 0
  else let result_value := MathToolbox.exp (MathToolbox.log base * value exp) in
       chain_rule result_value (MathToolbox.log base * result_value) exp.
Proof.
  unfold DenseAd.pow_se, assign_scalar; cbn zeta.
  destruct (base ==? 0); [reflexivity|]. apply scale_derivatives_chain.
Qed.

Lemma pow_unfold (base exp : Evaluation) :
  DenseAd.pow base exp =
  if value base ==? 0 then createConstant 0
  else let valuePow := MathToolbox.pow (value base) (value exp) in
       mkEvaluation valuePow
         (fun_to_vec (fun i =>
            (value exp * derivatives base !!! i / value base
             + MathToolbox.log (value base) * derivatives exp !!! i) * valuePow)).
Proof.
  unfold DenseAd.pow, eq_scalar, assign_scalar; cbn zeta.
  destruct (value base ==? 0); [reflexivity|]. by rewrite for_each_var_set.
Qed.

(** C1. When the value of the base compares equal to zero, each of the
    three [pow] overloads returns the all-zero AD value, value [0] and
    every derivative [0], whatever the exponent. *)
Theorem pow_zero_base (base exp : Evaluation) (c : ValueType) :
  (value base ==? 0) = true ->
  DenseAd.pow_es base c = mkEvaluation 0 (vreplicate numVars 0)
  /\ DenseAd.pow_se (value base) exp = mkEvaluation 0 (vreplicate numVars 0)
  /\ DenseAd.pow base exp = mkEvaluation 0 (vreplicate numVars 0).
Proof.
  intros Hzero. rewrite pow_es_unfold, pow_se_unfold, pow_unfold, Hzero.
  repeat split.
Qed.
End PowGeneric.

(** ** [isSame] of the AD toolbox *)
Section IsSame.
Context {ValueType Scalar : Type} {toolbox : MathToolbox.t ValueType Scalar}
        {numVars : nat}.
Local Abbreviation Evaluation := (Evaluation ValueType numVars) (only parsing).

Lemma isSame_derivatives_true (idxs : list (fin numVars)) (a b : Evaluation)
    (tolerance : Scalar) :
  EvaluationToolbox.isSame_derivatives idxs a b tolerance = true <->
  forall i, i ∈ idxs ->
    MathToolbox.isSame (derivatives a !!! i) (derivatives b !!! i) tolerance = true.
Proof.
  induction idxs as [|j idxs IH]; cbn [EvaluationToolbox.isSame_derivatives].
  - split; [|reflexivity]. intros _ i Hin. by apply elem_of_nil in Hin.
  - destruct (MathToolbox.isSame (derivatives a !!! j) (derivatives b !!! j) tolerance)
      eqn:Hj; cbn [negb].
    + rewrite IH. split.
      * intros Hall i [->|Hin]%elem_of_cons; [exact Hj | by apply Hall].
      * intros Hall i Hin. apply Hall, elem_of_cons. by right.
    + split; [discriminate|]. intros Hall.
      rewrite <- Hj. apply Hall, elem_of_cons. by left.
Qed.

Lemma isSame_derivatives_false (idxs : list (fin numVars)) (a b : Evaluation)
    (tolerance : Scalar) :
  EvaluationToolbox.isSame_derivatives idxs a b tolerance = false <->
  exists i, i ∈ idxs /\
    MathToolbox.isSame (derivatives a !!! i) (derivatives b !!! i) tolerance = false.
Proof.
  induction idxs as [|j idxs IH]; cbn [EvaluationToolbox.isSame_derivatives].
  - split; [discriminate|]. intros (i & Hin & _). by apply elem_of_nil in Hin.
  - destruct (MathToolbox.isSame (derivatives a !!! j) (derivatives b !!! j) tolerance)
      eqn:Hj; cbn [negb].
    + rewrite IH. split.
      * intros (i & Hin & Hi). exists i. split; [|exact Hi]. apply elem_of_cons. by right.
      * intros (i & [->|Hin]%elem_of_cons & Hi); [congruence|]. by exists i.
    + split; [|reflexivity]. intros _. exists j. split; [|exact Hj].
      apply elem_of_cons. by left.
Qed.

(** C6. [isSame(a, b, tolerance)] is [true] exactly when the inner
    toolbox's [isSame] accepts the two values and accepts the two
    derivatives at every one of the [numVars] indices; it is [false]
    exactly when one of these comparisons fails. *)
Theorem isSame_iff (a b : Evaluation) (tolerance : Scalar) :
  (EvaluationToolbox.isSame a b tolerance = true <->
     MathToolbox.isSame (value a) (value b) tolerance = true
     /\ forall i : fin numVars,
          MathToolbox.isSame (derivatives a !!! i) (derivatives b !!! i) tolerance
          = true)
  /\ (EvaluationToolbox.isSame a b tolerance = false <->
     MathToolbox.isSame (value a) (value b) tolerance = false
     \/ exists i : fin numVars,
          MathToolbox.isSame (derivatives a !!! i) (derivatives b !!! i) tolerance
          = false).
Proof.
  unfold EvaluationToolbox.isSame.
  destruct (MathToolbox.isSame (value a) (value b) tolerance); cbn [negb].
  - rewrite isSame_derivatives_true, isSame_derivatives_false. split; split.
    + intros Hall. split; [reflexivity|]. intros i. apply Hall, elem_of_enum.
    + intros [_ Hall] i _. apply Hall.
    + intros (i & _ & Hi). right. by exists i.
    + intros [?|(i & Hi)]; [discriminate|]. exists i. split; [apply elem_of_enum|exact Hi].
  - split; split; try discriminate; tauto.
Qed.
End IsSame.

(** ** The three [pow] overloads over the reals *)

(** The exact-arithmetic counterpart of the three-overload scenario.  It
    says nothing about binary64, where the result of [exp(log(2)*3)] and the
    last digits of the derivatives depend on how the platform's [exp], [log]
    and [pow] round.  For [base.value = 2] and [exp.value = 3], in exact real
    arithmetic: [pow(base, 3)], [pow(2, exp)] and [pow] of two AD operands
    (the non-varying one a constant, all derivatives zero) all have the
    value [8]; the AD/AD overload has the derivative vector of
    [pow(base, 3)] when the exponent is constant, and that of [pow(2, exp)]
    when the base is constant.  The common derivatives are [12*base'] and
    [8*ln(2)*exp']. *)
Theorem pow_overloads_agree (numVars : nat) (storage : EvaluationStorage R numVars)
    (dbase dexp : vec R numVars) :
  let base := mkEvaluation 2%R dbase in
  let exp := mkEvaluation 3%R dexp in
  value (DenseAd.pow_es base 3%R) = 8%R
  /\ value (DenseAd.pow_se 2%R exp) = 8%R
  /\ value (DenseAd.pow base (createConstant 3%R)) = 8%R
  /\ value (DenseAd.pow (createConstant 2%R) exp) = 8%R
  /\ derivatives (DenseAd.pow base (createConstant 3%R))
     = derivatives (DenseAd.pow_es base 3%R)
  /\ derivatives (DenseAd.pow (createConstant 2%R) exp)
     = derivatives (DenseAd.pow_se 2%R exp)
  /\ derivatives (DenseAd.pow_es base 3%R) = vmap (Rmult 12) dbase
  /\ derivatives (DenseAd.pow_se 2%R exp) = vmap (Rmult (8 * Rpower.ln 2)) dexp.
Proof.
  intros base exp.
  assert (Hnz : Reqb 2 0 = false).
  { unfold Reqb. destruct (Req_dec_T 2 0); [lra | reflexivity]. }
  assert (Hpow : Rpower 2 3 = 8%R).
  { replace 3%R with (INR 3) by (simpl; lra). rewrite Rpower_pow by lra. lra. }
  assert (Hexp : Rtrigo_def.exp (Rpower.ln 2 * 3) = 8%R).
  { rewrite <- Hpow. unfold Rpower. f_equal. ring. }
  rewrite pow_es_unfold, pow_se_unfold, !pow_unfold.
  subst base exp.
  cbn [value derivatives createConstant v_eq v_zero v_mul v_div v_add real_ops].
  rewrite Hnz.
  cbn [value derivatives chain_rule MathToolbox.pow MathToolbox.exp MathToolbox.log
       real_toolbox v_mul v_div real_ops].
  rewrite Hpow, Hexp.
  repeat split; apply vec_eq; intros i;
    rewrite ?lookup_fun_to_vec, ?vlookup_map, ?vlookup_replicate; lra.
Qed.

(** ** Sample evaluations on doubles *)

(** [min(5.0, x2)] with [x2 = (3, [2, 7])]: the AD operand wins and keeps
    its derivatives. *)
Example min_se_operand_wins :
  DenseAd.min_se (storage := nan_storage 2)
    5%float (mkEvaluation 3%float [# 2%float; 7%float])
  = mkEvaluation 3%float [# 2%float; 7%float].
Proof. vm_compute. reflexivity. Qed.

(** [min(1.0, x2)] with [x2 = (3, [2, 7])]: the scalar wins, the
    derivatives are zero. *)
Example min_se_scalar_wins :
  DenseAd.min_se (storage := nan_storage 2)
    1%float (mkEvaluation 3%float [# 2%float; 7%float])
  = mkEvaluation 1%float [# 0%float; 0%float].
Proof. vm_compute. reflexivity. Qed.

(** [max(x, 9.0)] goes through the scalar-first overload. *)
Example max_es_scalar_wins :
  DenseAd.max_es (storage := nan_storage 2)
    (mkEvaluation 3%float [# 2%float; 7%float]) 9%float
  = mkEvaluation 9%float [# 0%float; 0%float].
Proof. vm_compute. reflexivity. Qed.

(** [abs] negates the value and every derivative of a negative operand. *)
Example abs_negative :
  DenseAd.abs (storage := nan_storage 2)
    (mkEvaluation (-3)%float [# 2%float; (-7)%float])
  = mkEvaluation 3%float [# (-2)%float; 7%float].
Proof. vm_compute. reflexivity. Qed.

(** Neither [-0.0] nor NaN is below zero: [abs] copies both operands. *)
Example abs_negative_zero :
  DenseAd.abs (storage := nan_storage 1) (mkEvaluation (-0)%float [# 1%float])
  = mkEvaluation (-0)%float [# 1%float].
Proof. vm_compute. reflexivity. Qed.

Example abs_nan :
  DenseAd.abs (storage := nan_storage 1) (mkEvaluation nan [# 1%float])
  = mkEvaluation nan [# 1%float].
Proof. vm_compute. reflexivity. Qed.

(** A NaN first operand never wins a comparison: [min] and [max] both
    return the second operand. *)
Example min_max_nan_first :
  DenseAd.min (storage := nan_storage 1)
    (mkEvaluation nan [# 1%float]) (mkEvaluation 3%float [# 2%float])
  = mkEvaluation 3%float [# 2%float]
  /\ DenseAd.max (storage := nan_storage 1)
       (mkEvaluation nan [# 1%float]) (mkEvaluation 3%float [# 2%float])
     = mkEvaluation 3%float [# 2%float].
Proof. split; vm_compute; reflexivity. Qed.

(** ** The theorems at concrete operands *)

(** The zero-base case of the spec, [pow(x, 2.0)] with [x = (0, [5, 9])],
    and its two siblings, over the reals. *)
Lemma pow_zero_base_witness :
  Reqb 0 0 = true
  /\ (DenseAd.pow_es (storage := real_storage 2)
        (mkEvaluation 0%R [# 5%R; 9%R]) 2%R = mkEvaluation 0%R [# 0%R; 0%R]
      /\ DenseAd.pow_se (storage := real_storage 2)
           0%R (mkEvaluation 3%R [# 1%R; 0%R]) = mkEvaluation 0%R [# 0%R; 0%R]
      /\ DenseAd.pow (storage := real_storage 2)
           (mkEvaluation 0%R [# 5%R; 9%R]) (mkEvaluation 3%R [# 1%R; 0%R])
         = mkEvaluation 0%R [# 0%R; 0%R]).
Proof.
  assert (Hzero : Reqb 0 0 = true) by (apply Reqb_true; reflexivity).
  split; [exact Hzero|].
  exact (pow_zero_base (storage := real_storage 2)
           (mkEvaluation 0%R [# 5%R; 9%R]) (mkEvaluation 3%R [# 1%R; 0%R]) 2%R Hzero).
Defined.

(** A tie between two AD doubles: both [min] and [max] return the second
    operand. *)
Lemma min_max_select_witness :
  OrderLaws float
  /\ (DenseAd.min (storage := nan_storage 2)
        (mkEvaluation 3%float [# 1%float; 0%float])
        (mkEvaluation 3%float [# 2%float; 7%float])
      = mkEvaluation 3%float [# 2%float; 7%float]
      /\ DenseAd.max (storage := nan_storage 2)
           (mkEvaluation 3%float [# 1%float; 0%float])
           (mkEvaluation 3%float [# 2%float; 7%float])
         = mkEvaluation 3%float [# 2%float; 7%float]).
Proof.
  split; [exact double_order_laws|].
  exact (proj2 (proj2 (min_max_select (storage := nan_storage 2)
                         (mkEvaluation 3%float [# 1%float; 0%float])
                         (mkEvaluation 3%float [# 2%float; 7%float])))
               eq_refl).
Defined.

(** A tie between a double and an AD double: the derivatives [[2, 7]] are
    kept. *)
Lemma min_max_scalar_tie_witness :
  OrderLaws float
  /\ (3 =? 3)%float = true
  /\ (DenseAd.min_se (storage := nan_storage 2)
        3%float (mkEvaluation 3%float [# 2%float; 7%float])
      = mkEvaluation 3%float [# 2%float; 7%float]
      /\ DenseAd.max_se (storage := nan_storage 2)
           3%float (mkEvaluation 3%float [# 2%float; 7%float])
         = mkEvaluation 3%float [# 2%float; 7%float]).
Proof.
  split; [exact double_order_laws|]. split; [reflexivity|].
  exact (min_max_scalar_tie (storage := nan_storage 2)
           3%float (mkEvaluation 3%float [# 2%float; 7%float]) eq_refl).
Defined.

(** [abs] twice on the AD double [(-3, [2, 7])]. *)
Lemma abs_idempotent_witness :
  OrderLaws float
  /\ (let x := mkEvaluation (-3)%float [# 2%float; 7%float] in
      (value (DenseAd.abs (storage := nan_storage 2) x) <? 0)%float = false
      /\ DenseAd.abs (storage := nan_storage 2) (DenseAd.abs (storage := nan_storage 2) x)
         = DenseAd.abs (storage := nan_storage 2) x).
Proof.
  split; [exact double_order_laws|].
  exact (abs_idempotent (storage := nan_storage 2)
           (mkEvaluation (-3)%float [# 2%float; 7%float])).
Defined.

(** * Further properties of the library *)

(** ** Every field of the result is assigned *)
Section ResultIsAssigned.
Context {ValueType Scalar : Type} {ops : ValueOps ValueType}
        {toolbox : MathToolbox.t ValueType Scalar} {numVars : nat}.
Local Abbreviation Evaluation := (Evaluation ValueType numVars) (only parsing).
Local Open Scope vt_scope.

Lemma min_se_unfold {storage : EvaluationStorage ValueType numVars}
    (s : ValueType) (x : Evaluation) :
  DenseAd.min_se s x
  = if s <? value x then mkEvaluation s (vreplicate numVars 0) else x.
Proof. unfold DenseAd.min_se. destruct x as [v ds]; cbn [value]. by destruct (s <? v). Qed.

Lemma max_se_unfold {storage : EvaluationStorage ValueType numVars}
    (s : ValueType) (x : Evaluation) :
  DenseAd.max_se s x
  = if s >? value x then mkEvaluation s (vreplicate numVars 0) else x.
Proof. unfold DenseAd.max_se. destruct x as [v ds]; cbn [value]. by destruct (s >? v). Qed.

(** X1. Whatever the default constructor leaves in [result], no function of
    the library lets it through: run with two different default-constructed
    objects, every function returns the same AD value. *)
Theorem result_independent_of_default (st1 st2 : EvaluationStorage ValueType numVars)
    (x y : Evaluation) (s : ValueType) :
  DenseAd.abs (storage := st1) x = DenseAd.abs (storage := st2) x
  /\ DenseAd.min (storage := st1) x y = DenseAd.min (storage := st2) x y
  /\ DenseAd.min_se (storage := st1) s x = DenseAd.min_se (storage := st2) s x
  /\ DenseAd.min_es (storage := st1) x s = DenseAd.min_es (storage := st2) x s
  /\ DenseAd.max (storage := st1) x y = DenseAd.max (storage := st2) x y
  /\ DenseAd.max_se (storage := st1) s x = DenseAd.max_se (storage := st2) s x
  /\ DenseAd.max_es (storage := st1) x s = DenseAd.max_es (storage := st2) x s
  /\ DenseAd.tan (storage := st1) x = DenseAd.tan (storage := st2) x
  /\ DenseAd.atan (storage := st1) x = DenseAd.atan (storage := st2) x
  /\ DenseAd.atan2 (storage := st1) x y = DenseAd.atan2 (storage := st2) x y
  /\ DenseAd.sin (storage := st1) x = DenseAd.sin (storage := st2) x
  /\ DenseAd.asin (storage := st1) x = DenseAd.asin (storage := st2) x
  /\ DenseAd.cos (storage := st1) x = DenseAd.cos (storage := st2) x
  /\ DenseAd.acos (storage := st1) x = DenseAd.acos (storage := st2) x
  /\ DenseAd.sqrt (storage := st1) x = DenseAd.sqrt (storage := st2) x
  /\ DenseAd.exp (storage := st1) x = DenseAd.exp (storage := st2) x
  /\ DenseAd.log (storage := st1) x = DenseAd.log (storage := st2) x
  /\ DenseAd.pow_es (storage := st1) x s = DenseAd.pow_es (storage := st2) x s
  /\ DenseAd.pow_se (storage := st1) s x = DenseAd.pow_se (storage := st2) s x
  /\ DenseAd.pow (storage := st1) x y = DenseAd.pow (storage := st2) x y.
Proof.
  destruct (unary_chain_rule_generic (storage := st1) x)
    as (-> & -> & -> & -> & -> & -> & -> & -> & ->).
  destruct (unary_chain_rule_generic (storage := st2) x)
    as (-> & -> & -> & -> & -> & -> & -> & -> & ->).
  unfold DenseAd.min_es, DenseAd.max_es.
  rewrite !abs_unfold, !min_unfold, !max_unfold, !min_se_unfold, !max_se_unfold,
    !atan2_generic, !pow_es_unfold, !pow_se_unfold, !pow_unfold.
  repeat split.
Qed.
End ResultIsAssigned.

(** ** [abs] and the general branch of [pow] *)
Section AbsPowGeneric.
Context {ValueType Scalar : Type} {ops : ValueOps ValueType}
        {toolbox : MathToolbox.t ValueType Scalar} {numVars : nat}
        {storage : EvaluationStorage ValueType numVars}.
Local Abbreviation Evaluation := (Evaluation ValueType numVars) (only parsing).
Local Open Scope vt_scope.

(** X2. [abs(x)] negates the value and every one of the [numVars] derivatives
    when [x.value < 0.0]; in every other case (zero, positive, or a value
    that does not compare) it returns [x] unchanged. *)
Theorem abs_cases (x : Evaluation) :
  DenseAd.abs x
  = if value x <? 0
    then mkEvaluation (- value x) (vmap (fun d => - d) (derivatives x))
    else x.
Proof.
  unfold DenseAd.abs. destruct x as [v ds]; cbn [value derivatives].
  destruct (v <? 0); cbn zeta; rewrite for_each_var_set; cbn [set_value value].
  - by rewrite fun_to_vec_map.
  - by rewrite fun_to_vec_lookup.
Qed.

(** X3. When the base does not compare equal to zero, the three [pow]
    overloads take their general branch: [pow(base, c)] scales the
    derivatives of the base by [pow(v, c)/v*c]; [pow(b, exp)] has the value
    [exp(log(b)*exp.value)] and scales the derivatives of the exponent by
    [log(b)] times that value; [pow(base, exp)] has the value [pow(f, g)] and
    derivative [(g*f'/f + log(f)*g') * pow(f, g)] at every index. *)
Theorem pow_nonzero_base (base exp : Evaluation) (c : ValueType) :
  (value base ==? 0) = false ->
  let f := value base in
  let g := value exp in
  DenseAd.pow_es base c
  = chain_rule (MathToolbox.pow f c) (MathToolbox.pow f c / f * c) base
  /\ DenseAd.pow_se f exp
     = chain_rule (MathToolbox.exp (MathToolbox.log f * g))
         (MathToolbox.log f * MathToolbox.exp (MathToolbox.log f * g)) exp
  /\ value (DenseAd.pow base exp) = MathToolbox.pow f g
  /\ forall i : fin numVars,
       derivatives (DenseAd.pow base exp) !!! i
       = (g * derivatives base !!! i / f + MathToolbox.log f * derivatives exp !!! i)
         * MathToolbox.pow f g.
Proof.
  intros Hnz f g. subst f g.
  rewrite pow_es_unfold, pow_se_unfold, pow_unfold, Hnz; cbn zeta.
  repeat split. intros i. cbn [derivatives]. by rewrite lookup_fun_to_vec.
Qed.
End AbsPowGeneric.

(** ** [isSame] inherits reflexivity and symmetry *)
Section IsSameLifting.
Context {ValueType Scalar : Type} {toolbox : MathToolbox.t ValueType Scalar}
        {numVars : nat}.
Local Abbreviation Evaluation := (Evaluation ValueType numVars) (only parsing).

(** X4. If the inner [isSame] accepts every value compared with itself at a
    tolerance, so does the [isSame] of the AD toolbox. *)
Theorem isSame_refl (a : Evaluation) (tolerance : Scalar) :
  (forall v : ValueType, MathToolbox.isSame v v tolerance = true) ->
  EvaluationToolbox.isSame a a tolerance = true.
Proof.
  intros Hrefl. unfold EvaluationToolbox.isSame. rewrite Hrefl; cbn [negb].
  apply isSame_derivatives_true. intros i _. apply Hrefl.
Qed.

(** X5. If the inner [isSame] does not depend on the order of the two values,
    neither does the [isSame] of the AD toolbox. *)
Theorem isSame_sym (a b : Evaluation) (tolerance : Scalar) :
  (forall v w : ValueType,
     MathToolbox.isSame v w tolerance = MathToolbox.isSame w v tolerance) ->
  EvaluationToolbox.isSame a b tolerance = EvaluationToolbox.isSame b a tolerance.
Proof.
  intros Hsym. unfold EvaluationToolbox.isSame.
  rewrite (Hsym (value a) (value b)).
  assert (Hloop : forall idxs,
            EvaluationToolbox.isSame_derivatives idxs a b tolerance
            = EvaluationToolbox.isSame_derivatives idxs b a tolerance).
  { induction idxs as [|i idxs IH];
      cbn [EvaluationToolbox.isSame_derivatives]; [reflexivity|].
    by rewrite (Hsym (derivatives a !!! i) (derivatives b !!! i)), IH. }
  by rewrite Hloop.
Qed.
End IsSameLifting.

(** ** [min] and [max] on IEEE doubles *)

(** The comparison of the binary64 specification, read the other way
    round, gives the opposite answer. *)
Lemma SFcompare_antisym (a b : spec_float) :
  SFcompare b a = option_map CompOpp (SFcompare a b).
Proof.
  destruct a as [sa|sa| |sa ma ea], b as [sb|sb| |sb mb eb]; cbn;
    try destruct sa; try destruct sb; cbn; try reflexivity.
  - rewrite (Z.compare_antisym ea eb).
    fold (Pos.compare ma mb). fold (Pos.compare mb ma).
    rewrite (Pos.compare_antisym ma mb).
    destruct (Z.compare ea eb); cbn; try reflexivity;
      by destruct (Pos.compare ma mb).
  - rewrite (Z.compare_antisym ea eb).
    fold (Pos.compare ma mb). fold (Pos.compare mb ma).
    rewrite (Pos.compare_antisym ma mb).
    destruct (Z.compare ea eb); cbn; try reflexivity;
      by destruct (Pos.compare ma mb).
Qed.

(** Only a NaN makes two doubles incomparable. *)
Lemma SFcompare_None (a b : spec_float) :
  SFcompare a b = None -> SFcompare a a = None \/ SFcompare b b = None.
Proof.
  destruct a as [sa|sa| |sa ma ea], b as [sb|sb| |sb mb eb]; cbn;
    try discriminate; auto.
Qed.

Lemma is_nan_false_compare (f : float) :
  is_nan f = false -> SFcompare (Prim2SF f) (Prim2SF f) = Some Eq.
Proof.
  unfold is_nan. rewrite FloatAxioms.eqb_spec. unfold SFeqb.
  destruct (SFcompare (Prim2SF f) (Prim2SF f)) as [[]|]; cbn; congruence.
Qed.

Lemma is_nan_true_compare (f : float) :
  is_nan f = true -> SFcompare (Prim2SF f) (Prim2SF f) = None.
Proof.
  unfold is_nan. rewrite FloatAxioms.eqb_spec. unfold SFeqb.
  destruct (Prim2SF f) as [s|s| |s m e]; cbn; try destruct s; cbn;
    try discriminate; try reflexivity.
  - rewrite Z.compare_refl. fold (Pos.compare m m). rewrite Pos.compare_refl.
    discriminate.
  - rewrite Z.compare_refl. fold (Pos.compare m m). rewrite Pos.compare_refl.
    discriminate.
Qed.

(** A NaN is below nothing and nothing is below a NaN. *)
Lemma ltb_nan (f g : float) :
  is_nan f = true \/ is_nan g = true -> (f <? g)%float = false.
Proof.
  rewrite ltb_spec. unfold SFltb.
  destruct (SFcompare (Prim2SF f) (Prim2SF g)) as [c|] eqn:Hc; [|reflexivity].
  intros [Hf%is_nan_true_compare | Hg%is_nan_true_compare]; exfalso.
  - destruct (Prim2SF f) as [s|s| |s m e]; cbn in Hf, Hc; try destruct s; discriminate.
  - destruct (Prim2SF g) as [s|s| |s m e]; cbn in Hg; try destruct s; try discriminate.
    destruct (Prim2SF f); discriminate.
Qed.

(** X6. On doubles, a NaN never wins a comparison.  If either value is NaN,
    [min(x1, x2)] and [max(x1, x2)] both return the second operand [x2], and
    the mixed overloads [min(s, x2)], [max(s, x2)] with [s = x1.value] return
    [x2] with its derivatives: a NaN scalar is dropped, a NaN in [x2] is
    passed on. *)
Theorem min_max_nan (numVars : nat) (storage : EvaluationStorage float numVars)
    (x1 x2 : Evaluation float numVars) :
  is_nan (value x1) = true \/ is_nan (value x2) = true ->
  DenseAd.min x1 x2 = x2 /\ DenseAd.max x1 x2 = x2
  /\ DenseAd.min_se (value x1) x2 = x2 /\ DenseAd.max_se (value x1) x2 = x2.
Proof.
  intros Hnan.
  rewrite min_unfold, max_unfold, min_se_unfold, max_se_unfold.
  cbn [v_lt v_gt double_ops].
  rewrite (ltb_nan (value x1) (value x2)) by exact Hnan.
  rewrite (ltb_nan (value x2) (value x1)) by tauto.
  repeat split.
Qed.

(** X7. On doubles without NaN, [min] returns a lower bound and [max] an
    upper bound of the two values. *)
Theorem min_max_bounds (numVars : nat) (storage : EvaluationStorage float numVars)
    (x1 x2 : Evaluation float numVars) :
  is_nan (value x1) = false -> is_nan (value x2) = false ->
  (value (DenseAd.min x1 x2) <=? value x1)%float = true
  /\ (value (DenseAd.min x1 x2) <=? value x2)%float = true
  /\ (value x1 <=? value (DenseAd.max x1 x2))%float = true
  /\ (value x2 <=? value (DenseAd.max x1 x2))%float = true.
Proof.
  intros H1%is_nan_false_compare H2%is_nan_false_compare.
  rewrite min_unfold, max_unfold. cbn [v_lt v_gt double_ops].
  rewrite !ltb_spec. unfold SFltb.
  pose proof (SFcompare_antisym (Prim2SF (value x1)) (Prim2SF (value x2))) as Hanti.
  pose proof (SFcompare_None (Prim2SF (value x1)) (Prim2SF (value x2))) as Hnone.
  destruct (SFcompare (Prim2SF (value x1)) (Prim2SF (value x2))) as [c|] eqn:H12.
  - rewrite Hanti. cbn [option_map].
    destruct c; cbn [CompOpp]; rewrite !leb_spec; unfold SFleb;
      rewrite ?H1, ?H2, ?H12, ?Hanti; cbn [option_map CompOpp]; repeat split.
  - destruct (Hnone eq_refl); congruence.
Qed.

(** ** The library over the reals *)
Section RealSemantics.
Context {numVars : nat} {storage : EvaluationStorage R numVars}.
Local Abbreviation Evaluation := (Evaluation R numVars) (only parsing).
Local Open Scope R_scope.

Lemma Reqb_false (a b : R) : Reqb a b = false <-> a <> b.
Proof. unfold Reqb. destruct (Req_dec_T a b); split; (congruence || tauto). Qed.

(** X8. Over the reals the value of [min] is the minimum of the two values,
    that of [max] their maximum, also for the overloads with a plain scalar,
    and the value of [abs] is the absolute value. *)
Theorem min_max_abs_values (x1 x2 : Evaluation) (s : R) :
  value (DenseAd.min x1 x2) = Rmin (value x1) (value x2)
  /\ value (DenseAd.max x1 x2) = Rmax (value x1) (value x2)
  /\ value (DenseAd.min_se s x2) = Rmin s (value x2)
  /\ value (DenseAd.max_se s x2) = Rmax s (value x2)
  /\ value (DenseAd.min_es x1 s) = Rmin (value x1) s
  /\ value (DenseAd.max_es x1 s) = Rmax (value x1) s
  /\ value (DenseAd.abs x1) = Rabs (value x1).
Proof.
  unfold DenseAd.min_es, DenseAd.max_es.
  rewrite min_unfold, max_unfold, !min_se_unfold, !max_se_unfold, abs_unfold.
  cbn [v_lt v_gt v_zero v_neg real_ops]. unfold Rltb.
  repeat split.
  - destruct (Rlt_dec (value x1) (value x2)); [rewrite Rmin_left | rewrite Rmin_right]; lra.
  - destruct (Rlt_dec (value x2) (value x1)); [rewrite Rmax_left | rewrite Rmax_right]; lra.
  - destruct (Rlt_dec s (value x2)); cbn [value];
      [rewrite Rmin_left | rewrite Rmin_right]; lra.
  - destruct (Rlt_dec (value x2) s); cbn [value];
      [rewrite Rmax_left | rewrite Rmax_right]; lra.
  - destruct (Rlt_dec s (value x1)); cbn [value];
      [rewrite Rmin_right | rewrite Rmin_left]; lra.
  - destruct (Rlt_dec (value x1) s); cbn [value];
      [rewrite Rmax_right | rewrite Rmax_left]; lra.
  - destruct (Rlt_dec (value x1) 0); cbn [value];
      [rewrite Rabs_left | rewrite Rabs_right]; lra.
Qed.

(** X9. For a positive base, in exact arithmetic, the AD/AD overload of [pow]
    is consistent with the two mixed overloads: with a constant exponent it
    returns what [pow(base, c)] returns, with a constant base what
    [pow(b, exp)] returns, value and derivatives. *)
Theorem pow_overloads_consistent (base exp : Evaluation) :
  0 < value base ->
  DenseAd.pow base (createConstant (value exp)) = DenseAd.pow_es base (value exp)
  /\ DenseAd.pow (createConstant (value base)) exp = DenseAd.pow_se (value base) exp.
Proof.
  intros Hpos.
  assert (Hnz : Reqb (value base) 0 = false) by (apply Reqb_false; lra).
  rewrite pow_es_unfold, pow_se_unfold, !pow_unfold.
  cbn [value derivatives createConstant v_eq v_zero real_ops]. rewrite Hnz.
  unfold chain_rule.
  cbn [value MathToolbox.pow MathToolbox.exp MathToolbox.log real_toolbox
       v_mul v_div v_add real_ops].
  split; f_equal.
  - apply vec_eq. intros i.
    rewrite lookup_fun_to_vec, vlookup_map, vlookup_replicate. field. lra.
  - unfold Rpower. f_equal. ring.
  - apply vec_eq. intros i.
    rewrite lookup_fun_to_vec, vlookup_map, vlookup_replicate.
    unfold Rpower. replace (value exp * ln (value base)) with (ln (value base) * value exp)
      by ring. field. lra.
Qed.

(** X10. Round trips in exact arithmetic: [log(exp(x))] and [tan(atan(x))] give
    back [x], value and every derivative. *)
Theorem log_exp_tan_atan_roundtrip (x : Evaluation) :
  DenseAd.log (DenseAd.exp x) = x /\ DenseAd.tan (DenseAd.atan x) = x.
Proof.
  destruct x as [v ds].
  pose proof (unary_chain_rule_generic (mkEvaluation v ds)) as Hx.
  cbn zeta in Hx. cbn [value] in Hx.
  destruct Hx as (_ & _ & _ & _ & _ & -> & -> & _ & _).
  pose proof (unary_chain_rule_generic
                (chain_rule (MathToolbox.exp v) (MathToolbox.exp v) (mkEvaluation v ds)))
    as Hexp.
  pose proof (unary_chain_rule_generic
                (chain_rule (MathToolbox.atan v) (1 / (1 + v * v))%vt (mkEvaluation v ds)))
    as Hatan.
  cbn zeta in Hexp, Hatan.
  destruct Hexp as (_ & _ & _ & _ & _ & _ & _ & -> & _).
  destruct Hatan as (_ & _ & -> & _).
  unfold chain_rule.
  cbn [value derivatives MathToolbox.exp MathToolbox.log MathToolbox.atan
       MathToolbox.tan real_toolbox v_mul v_div v_add v_one real_ops].
  rewrite ln_exp, tan_atan.
  pose proof (exp_pos v) as Hexp_pos.
  split; f_equal; apply vec_eq; intros i; rewrite !vlookup_map; field; nra.
Qed.

(** X11. Over the reals, for a positive value, [exp(log(x))] gives back
    [x], value and every derivative. *)
Theorem exp_log_roundtrip (x : Evaluation) :
  0 < value x -> DenseAd.exp (DenseAd.log x) = x.
Proof.
  destruct x as [v ds]; cbn [value]. intros Hpos.
  pose proof (unary_chain_rule_generic (mkEvaluation v ds)) as Hx.
  cbn zeta in Hx. cbn [value] in Hx.
  destruct Hx as (_ & _ & _ & _ & _ & _ & _ & -> & _).
  pose proof (unary_chain_rule_generic
                (chain_rule (MathToolbox.log v) (1 / v)%vt (mkEvaluation v ds)))
    as Hlog.
  cbn zeta in Hlog.
  destruct Hlog as (_ & _ & _ & _ & _ & _ & -> & _).
  unfold chain_rule.
  cbn [value derivatives MathToolbox.exp MathToolbox.log real_toolbox
       v_mul v_div v_one real_ops].
  rewrite exp_ln by exact Hpos.
  f_equal. apply vec_eq. intros i. rewrite !vlookup_map. field. lra.
Qed.
End RealSemantics.

(** ** The derivatives are the derivatives

    Over the reals every function of the library keeps the meaning of an AD
    value ([carries]): if the operand holds, along variable [i], the value
    and derivative of [u] at [t], the result holds those of the composed
    function. *)
Section Soundness.
Context {numVars : nat} {storage : EvaluationStorage R numVars}.
Local Abbreviation Evaluation := (Evaluation R numVars) (only parsing).
Local Open Scope R_scope.

(** The chain rule proper. *)
Lemma carries_chain (f : R -> R) (df : R) (x : Evaluation) (i : fin numVars)
    (u : R -> R) (t : R) :
  carries x i u t ->
  derivable_pt_lim f (value x) df ->
  carries (chain_rule (f (value x)) df x) i (fun s => f (u s)) t.
Proof.
  intros [Hval Hder] Hf. split; cbn [chain_rule value derivatives].
  - by rewrite Hval.
  - rewrite vlookup_map. rewrite <- Hval in Hf.
    exact (derivable_pt_lim_comp u f t _ _ Hder Hf).
Qed.

(** X12. At every operand, [sin(x)], [cos(x)], [exp(x)] and [atan(x)] hold
    the value and the derivative of [sin(u)], [cos(u)], [exp(u)] and
    [atan(u)] when [x] holds those of [u]. *)
Theorem sin_cos_exp_atan_sound (x : Evaluation) (i : fin numVars) (u : R -> R) (t : R) :
  carries x i u t ->
  carries (DenseAd.sin x) i (fun s => Rtrigo_def.sin (u s)) t
  /\ carries (DenseAd.cos x) i (fun s => Rtrigo_def.cos (u s)) t
  /\ carries (DenseAd.exp x) i (fun s => Rtrigo_def.exp (u s)) t
  /\ carries (DenseAd.atan x) i (fun s => Ratan.atan (u s)) t.
Proof.
  intros Hx.
  destruct (unary_chain_rule_generic x) as (-> & -> & _ & _ & _ & -> & -> & _ & _).
  split; [|split; [|split]]; apply (carries_chain _ _ x i u t Hx).
  - apply derivable_pt_lim_sin.
  - apply derivable_pt_lim_cos.
  - apply derivable_pt_lim_exp.
  - cbn [v_div v_add v_mul v_one real_ops].
    replace (1 / (1 + value x * value x)) with (/ (1 + value x ^ 2)) by (field; nra).
    apply derivable_pt_lim_atan.
Qed.

(** X13. At a positive value, [log(x)] and [sqrt(x)] hold the value and the
    derivative of [ln(u)] and [sqrt(u)] when [x] holds those of [u]. *)
Theorem log_sqrt_sound (x : Evaluation) (i : fin numVars) (u : R -> R) (t : R) :
  0 < value x ->
  carries x i u t ->
  carries (DenseAd.log x) i (fun s => Rpower.ln (u s)) t
  /\ carries (DenseAd.sqrt x) i (fun s => R_sqrt.sqrt (u s)) t.
Proof.
  intros Hpos Hx.
  destruct (unary_chain_rule_generic x) as (_ & _ & _ & _ & _ & _ & _ & -> & ->).
  split; apply (carries_chain _ _ x i u t Hx);
    cbn [v_div v_one v_half real_ops MathToolbox.sqrt real_toolbox].
  - replace (1 / value x) with (/ value x) by (field; lra).
    by apply derivable_pt_lim_ln.
  - pose proof (sqrt_lt_R0 (value x) Hpos) as Hsqrt.
    replace (/ 2 / R_sqrt.sqrt (value x)) with (/ (2 * R_sqrt.sqrt (value x)))
      by (field; lra).
    by apply derivable_pt_lim_sqrt.
Qed.

(** The derivative of the tangent wherever the cosine does not vanish. *)
Lemma derivable_pt_lim_tan (v : R) :
  Rtrigo_def.cos v <> 0 ->
  derivable_pt_lim Rtrigo1.tan v (1 + Rtrigo1.tan v * Rtrigo1.tan v).
Proof.
  intros Hcos.
  pose proof (derivable_pt_lim_div Rtrigo_def.sin Rtrigo_def.cos v _ _
                (derivable_pt_lim_sin v) (derivable_pt_lim_cos v) Hcos) as Hdiv.
  replace (1 + Rtrigo1.tan v * Rtrigo1.tan v)
    with ((Rtrigo_def.cos v * Rtrigo_def.cos v - - Rtrigo_def.sin v * Rtrigo_def.sin v)
          / Rsqr (Rtrigo_def.cos v)).
  - exact Hdiv.
  - unfold Rtrigo1.tan, Rsqr. field. exact Hcos.
Qed.

(** X14. Wherever the cosine of the value does not vanish, [tan(x)] holds
    the value and the derivative of [tan(u)] when [x] holds those of [u]. *)
Theorem tan_sound (x : Evaluation) (i : fin numVars) (u : R -> R) (t : R) :
  Rtrigo_def.cos (value x) <> 0 ->
  carries x i u t ->
  carries (DenseAd.tan x) i (fun s => Rtrigo1.tan (u s)) t.
Proof.
  intros Hcos Hx.
  destruct (unary_chain_rule_generic x) as (_ & _ & -> & _).
  apply (carries_chain _ _ x i u t Hx). by apply derivable_pt_lim_tan.
Qed.

(** X15. For a value strictly between [-1] and [1], [asin(x)] and [acos(x)]
    hold the value and the derivative of [asin(u)] and [acos(u)] when [x]
    holds those of [u]. *)
Theorem asin_acos_sound (x : Evaluation) (i : fin numVars) (u : R -> R) (t : R) :
  -1 < value x < 1 ->
  carries x i u t ->
  carries (DenseAd.asin x) i (fun s => Ratan.asin (u s)) t
  /\ carries (DenseAd.acos x) i (fun s => Ratan.acos (u s)) t.
Proof.
  intros Hrange Hx.
  destruct (unary_chain_rule_generic x) as (_ & _ & _ & -> & -> & _).
  assert (Hsqrt : 0 < R_sqrt.sqrt (1 - value x * value x)) by (apply sqrt_lt_R0; nra).
  split; apply (carries_chain _ _ x i u t Hx);
    cbn [v_div v_sub v_mul v_one v_neg real_ops MathToolbox.sqrt real_toolbox].
  - apply (derive_pt_eq_1 _ _ _ (derivable_pt_asin (value x) Hrange)).
    rewrite derive_pt_asin. unfold Rsqr. reflexivity.
  - apply (derive_pt_eq_1 _ _ _ (derivable_pt_acos (value x) Hrange)).
    rewrite derive_pt_acos. unfold Rsqr. field. lra.
Qed.

(** X16. Away from zero, [abs(x)] holds the value and the derivative of
    [|u|] when [x] holds those of [u]. *)
Theorem abs_sound (x : Evaluation) (i : fin numVars) (u : R -> R) (t : R) :
  value x <> 0 ->
  carries x i u t ->
  carries (DenseAd.abs x) i (fun s => Rabs (u s)) t.
Proof.
  intros Hnz [Hval Hder]. rewrite abs_unfold. cbn [v_lt v_zero v_neg real_ops].
  unfold Rltb. destruct (Rlt_dec (value x) 0) as [Hneg|Hnneg].
  - split; cbn [value derivatives].
    + rewrite Hval. by apply Rabs_left.
    + rewrite vlookup_map. replace (- derivatives x !!! i) with (-1 * derivatives x !!! i)
        by ring.
      apply (derivable_pt_lim_comp u Rabs t _ _ Hder).
      apply Rabs_derive_2. by rewrite Hval.
  - split.
    + rewrite Hval. apply Rabs_right. lra.
    + replace (derivatives x !!! i) with (1 * derivatives x !!! i) by ring.
      apply (derivable_pt_lim_comp u Rabs t _ _ Hder).
      apply Rabs_derive_1. rewrite Hval. lra.
Qed.

(** X17. For a positive base, when [base] holds the value and derivative
    of [u] and [exp] those of [w], [pow(base, c)] holds the value and
    derivative of [u^c], [pow(b, exp)] those of [b^w] and [pow(base, exp)]
    those of [u^w]. *)
Theorem pow_sound (base exp : Evaluation) (c : R) (i : fin numVars)
    (u w : R -> R) (t : R) :
  0 < value base ->
  carries base i u t ->
  carries exp i w t ->
  carries (DenseAd.pow_es base c) i (fun s => Rpower (u s) c) t
  /\ carries (DenseAd.pow_se (value base) exp) i (fun s => Rpower (value base) (w s)) t
  /\ carries (DenseAd.pow base exp) i (fun s => Rpower (u s) (w s)) t.
Proof.
  intros Hpos Hbase Hexp.
  assert (Hnz : Reqb (value base) 0 = false) by (apply Reqb_false; lra).
  rewrite pow_es_unfold, pow_se_unfold, pow_unfold.
  cbn [v_eq v_zero real_ops]. rewrite Hnz. cbn zeta.
  cbn [MathToolbox.pow MathToolbox.exp MathToolbox.log real_toolbox
       v_mul v_div v_add real_ops].
  split; [|split].
  - apply (carries_chain (fun b => Rpower b c) _ base i u t Hbase).
    replace (Rpower (value base) c / value base * c)
      with (c * Rpower (value base) (c - 1)).
    + by apply derivable_pt_lim_power.
    + unfold Rminus. rewrite Rpower_plus, Rpower_Ropp, Rpower_1 by exact Hpos.
      field. lra.
  - replace (Rtrigo_def.exp (ln (value base) * value exp))
      with ((fun g => Rpower (value base) g) (value exp))
      by (unfold Rpower; f_equal; ring).
    apply (carries_chain (fun g => Rpower (value base) g) _ exp i w t Hexp).
    unfold Rpower.
    replace (ln (value base) * Rtrigo_def.exp (value exp * ln (value base)))
      with (Rtrigo_def.exp (value exp * ln (value base)) * (1 * ln (value base)))
      by ring.
    apply (derivable_pt_lim_comp (fun g => g * ln (value base)) Rtrigo_def.exp).
    + apply (derivable_pt_lim_ext (fun g => ln (value base) * id g)).
      * intros z. unfold id. ring.
      * replace (1 * ln (value base)) with (ln (value base) * 1) by ring.
        apply (derivable_pt_lim_scal id (ln (value base)) (value exp) 1).
        apply derivable_pt_lim_id.
    + apply derivable_pt_lim_exp.
  - destruct Hbase as [Hu Hdu], Hexp as [Hw Hdw].
    split; cbn [value derivatives].
    + by rewrite Hu, Hw.
    + rewrite lookup_fun_to_vec. unfold Rpower.
      set (f := value base) in *. set (g := value exp) in *.
      set (f' := derivatives base !!! i) in *. set (g' := derivatives exp !!! i) in *.
      replace ((g * f' / f + ln f * g') * Rtrigo_def.exp (g * ln f))
        with (Rtrigo_def.exp (w t * ln (u t)) * (g' * ln (u t) + w t * (/ f * f')))
        by (rewrite Hu, Hw; field; lra).
      apply (derivable_pt_lim_comp (fun s => w s * ln (u s)) Rtrigo_def.exp).
      * apply (derivable_pt_lim_mult w (fun s => ln (u s)) t _ _ Hdw).
        apply (derivable_pt_lim_comp u ln t _ _ Hdu).
        rewrite Hu. by apply derivable_pt_lim_ln.
      * apply derivable_pt_lim_exp.
Qed.

(** Where two differentiable functions are strictly ordered at a point
    they are so around it. *)
Lemma derivable_lt_nearby (u w : R -> R) (t a b : R) :
  derivable_pt_lim u t a -> derivable_pt_lim w t b -> u t < w t ->
  exists delta : R, 0 < delta /\ forall z, t - delta < z < t + delta -> u z < w z.
Proof.
  intros Hu Hw Hlt.
  pose proof (derivable_continuous_pt (w - u)%F t
                (exist _ (b - a) (derivable_pt_lim_minus w u t b a Hw Hu))) as Hcont.
  destruct (Hcont (w t - u t)) as (delta & Hdelta & Hnear); [lra|].
  exists delta. split; [lra|]. intros z Hz.
  destruct (Req_dec_T t z) as [<-|Hne]; [exact Hlt|].
  specialize (Hnear z). unfold D_x, no_cond, dist in Hnear; cbn in Hnear.
  unfold Rdist, minus_fct in Hnear.
  assert (Hclose : Rabs (z - t) < delta) by (apply Rabs_def1; lra).
  specialize (Hnear (conj (conj I Hne) Hclose)).
  apply Rabs_def2 in Hnear. lra.
Qed.

(** X18. For a positive second operand, [atan2(x, y)] holds the value and
    the derivative of [atan2(u, w)] when [x] holds those of [u] and [y]
    those of [w]. *)
Theorem atan2_sound (x y : Evaluation) (i : fin numVars) (u w : R -> R) (t : R) :
  0 < value y ->
  carries x i u t ->
  carries y i w t ->
  carries (DenseAd.atan2 x y) i (fun s => real_atan2 (u s) (w s)) t.
Proof.
  intros Hpos [Hu Hdu] [Hw Hdw]. rewrite atan2_generic.
  cbn zeta. split; cbn [value derivatives].
  - by rewrite Hu, Hw.
  - rewrite lookup_fun_to_vec.
    cbn [v_mul v_div v_add v_sub v_one real_ops].
    destruct (derivable_lt_nearby (fun _ => 0) w t 0 (derivatives y !!! i))
      as (delta & Hdelta & Hnear);
      [apply (derivable_pt_lim_const 0) | exact Hdw | lra |].
    apply (derivable_pt_lim_locally_ext (fun s => Ratan.atan (u s / w s)) _ t
             (t - delta) (t + delta)); [lra | |].
    + intros z Hz. unfold real_atan2.
      destruct (Rlt_dec 0 (w z)) as [_|Hn]; [reflexivity|].
      exfalso. apply Hn. by apply Hnear.
    + set (xv := value x) in *. set (yv := value y) in *.
      set (x' := derivatives x !!! i) in *. set (y' := derivatives y !!! i) in *.
      replace (1 / (1 + xv * xv / (yv * yv)) / (yv * yv) * (x' * yv - xv * y'))
        with (/ (1 + (u t / w t) ^ 2) * ((x' * w t - y' * u t) / Rsqr (w t)))
        by (rewrite Hu, Hw; unfold Rsqr; field; split; nra).
      apply (derivable_pt_lim_comp (fun s => u s / w s) Ratan.atan).
      * apply (derivable_pt_lim_div u w t _ _ Hdu Hdw). lra.
      * apply derivable_pt_lim_atan.
Qed.

(** X19. Where the two values differ, [min(x1, x2)] and [max(x1, x2)] hold
    the value and the derivative of the pointwise minimum and maximum of
    [u] and [w] when [x1] holds those of [u] and [x2] those of [w]. *)
Theorem min_max_sound (x1 x2 : Evaluation) (i : fin numVars) (u w : R -> R) (t : R) :
  value x1 <> value x2 ->
  carries x1 i u t ->
  carries x2 i w t ->
  carries (DenseAd.min x1 x2) i (fun s => Rmin (u s) (w s)) t
  /\ carries (DenseAd.max x1 x2) i (fun s => Rmax (u s) (w s)) t.
Proof.
  intros Hne [Hu Hdu] [Hw Hdw]. rewrite min_unfold, max_unfold.
  cbn [v_lt v_gt real_ops]. unfold Rltb.
  destruct (Rlt_dec (value x1) (value x2)) as [Hlt|Hnlt].
  - destruct (Rlt_dec (value x2) (value x1)) as [Hgt|_]; [lra|].
    destruct (derivable_lt_nearby u w t _ _ Hdu Hdw) as (delta & Hdelta & Hnear); [lra|].
    split; split.
    + rewrite Rmin_left; lra.
    + apply (derivable_pt_lim_locally_ext u _ t (t - delta) (t + delta)); [lra| |exact Hdu].
      intros z Hz. specialize (Hnear z Hz). rewrite Rmin_left; lra.
    + rewrite Rmax_right; lra.
    + apply (derivable_pt_lim_locally_ext w _ t (t - delta) (t + delta)); [lra| |exact Hdw].
      intros z Hz. specialize (Hnear z Hz). rewrite Rmax_right; lra.
  - destruct (Rlt_dec (value x2) (value x1)) as [Hgt|Hngt]; [|lra].
    destruct (derivable_lt_nearby w u t _ _ Hdw Hdu) as (delta & Hdelta & Hnear); [lra|].
    split; split.
    + rewrite Rmin_right; lra.
    + apply (derivable_pt_lim_locally_ext w _ t (t - delta) (t + delta)); [lra| |exact Hdw].
      intros z Hz. specialize (Hnear z Hz). rewrite Rmin_right; lra.
    + rewrite Rmax_left; lra.
    + apply (derivable_pt_lim_locally_ext u _ t (t - delta) (t + delta)); [lra| |exact Hdu].
      intros z Hz. specialize (Hnear z Hz). rewrite Rmax_left; lra.
Qed.
End Soundness.

(** ** The further properties at concrete operands *)

Lemma real_isSame_refl (v : R) : real_isSame v v 1 = true.
Proof.
  unfold real_isSame. destruct (Rle_dec (Rabs (v - v)) 1) as [_|Hn]; [reflexivity|].
  exfalso. apply Hn. replace (v - v)%R with 0%R by ring. rewrite Rabs_R0. lra.
Qed.

Lemma real_isSame_sym (v w : R) : real_isSame v w 1 = real_isSame w v 1.
Proof. unfold real_isSame. by rewrite (Rabs_minus_sym v w). Qed.

(** The one-variable AD value of the variable itself, and of a constant. *)
Lemma carries_variable (t : R) :
  carries (mkEvaluation t [# 1%R]) 0%fin (fun s => s) t.
Proof. split; [reflexivity|]. apply derivable_pt_lim_id. Qed.

Lemma carries_constant (c t : R) :
  carries (mkEvaluation c [# 0%R]) 0%fin (fun _ => c) t.
Proof. split; [reflexivity|]. apply (derivable_pt_lim_const c). Qed.

Lemma pow_nonzero_base_witness :
  let base := mkEvaluation 2%R [# 1%R] in
  let exp := mkEvaluation 3%R [# 0%R] in
  Reqb 2 0 = false
  /\ (DenseAd.pow_es (storage := real_storage 1) base 3%R
      = chain_rule (Rpower 2 3) (Rpower 2 3 / 2 * 3)%R base
      /\ DenseAd.pow_se (storage := real_storage 1) 2%R exp
         = chain_rule (Rtrigo_def.exp (ln 2 * 3)) (ln 2 * Rtrigo_def.exp (ln 2 * 3))%R exp
      /\ value (DenseAd.pow (storage := real_storage 1) base exp) = Rpower 2 3
      /\ forall i : fin 1,
           derivatives (DenseAd.pow (storage := real_storage 1) base exp) !!! i
           = ((3 * derivatives base !!! i / 2 + ln 2 * derivatives exp !!! i)
              * Rpower 2 3)%R).
Proof.
  intros base exp.
  assert (Hnz : Reqb 2 0 = false).
  { unfold Reqb. destruct (Req_dec_T 2 0); [lra | reflexivity]. }
  split; [exact Hnz|].
  exact (pow_nonzero_base (storage := real_storage 1) base exp 3%R Hnz).
Defined.

Lemma isSame_refl_witness :
  (forall v : R, real_isSame v v 1 = true)
  /\ EvaluationToolbox.isSame (mkEvaluation 2%R [# 5%R; 9%R])
       (mkEvaluation 2%R [# 5%R; 9%R]) 1%R = true.
Proof.
  split; [exact real_isSame_refl|].
  exact (isSame_refl (mkEvaluation 2%R [# 5%R; 9%R]) 1%R real_isSame_refl).
Defined.

Lemma isSame_sym_witness :
  (forall v w : R, real_isSame v w 1 = real_isSame w v 1)
  /\ EvaluationToolbox.isSame (mkEvaluation 2%R [# 5%R; 9%R])
       (mkEvaluation 3%R [# 5%R; 7%R]) 1%R
     = EvaluationToolbox.isSame (mkEvaluation 3%R [# 5%R; 7%R])
         (mkEvaluation 2%R [# 5%R; 9%R]) 1%R.
Proof.
  split; [exact real_isSame_sym|].
  exact (isSame_sym (mkEvaluation 2%R [# 5%R; 9%R]) (mkEvaluation 3%R [# 5%R; 7%R])
           1%R real_isSame_sym).
Defined.

Lemma min_max_nan_witness :
  let x1 := mkEvaluation nan [# 1%float] in
  let x2 := mkEvaluation 3%float [# 2%float] in
  (is_nan (value x1) = true \/ is_nan (value x2) = true)
  /\ (DenseAd.min (storage := nan_storage 1) x1 x2 = x2
      /\ DenseAd.max (storage := nan_storage 1) x1 x2 = x2
      /\ DenseAd.min_se (storage := nan_storage 1) (value x1) x2 = x2
      /\ DenseAd.max_se (storage := nan_storage 1) (value x1) x2 = x2).
Proof.
  intros x1 x2.
  split; [left; reflexivity|].
  exact (min_max_nan 1 (nan_storage 1) x1 x2 (or_introl eq_refl)).
Defined.

Lemma min_max_bounds_witness :
  let x1 := mkEvaluation 5%float [# 1%float] in
  let x2 := mkEvaluation 3%float [# 2%float] in
  is_nan (value x1) = false /\ is_nan (value x2) = false
  /\ ((value (DenseAd.min (storage := nan_storage 1) x1 x2) <=? value x1)%float = true
      /\ (value (DenseAd.min (storage := nan_storage 1) x1 x2) <=? value x2)%float = true
      /\ (value x1 <=? value (DenseAd.max (storage := nan_storage 1) x1 x2))%float = true
      /\ (value x2 <=? value (DenseAd.max (storage := nan_storage 1) x1 x2))%float = true).
Proof.
  intros x1 x2.
  split; [reflexivity|]. split; [reflexivity|].
  exact (min_max_bounds 1 (nan_storage 1) x1 x2 eq_refl eq_refl).
Defined.

Lemma pow_overloads_consistent_witness :
  let base := mkEvaluation 2%R [# 5%R; 9%R] in
  let exp := mkEvaluation 3%R [# 1%R; 4%R] in
  (0 < value base)%R
  /\ (DenseAd.pow (storage := real_storage 2) base (createConstant (value exp))
      = DenseAd.pow_es (storage := real_storage 2) base (value exp)
      /\ DenseAd.pow (storage := real_storage 2) (createConstant (value base)) exp
         = DenseAd.pow_se (storage := real_storage 2) (value base) exp).
Proof.
  intros base exp.
  assert (Hpos : (0 < value base)%R) by (cbn; lra).
  split; [exact Hpos|].
  exact (pow_overloads_consistent (storage := real_storage 2) base exp Hpos).
Defined.

Lemma exp_log_roundtrip_witness :
  let x := mkEvaluation 2%R [# 5%R; 9%R] in
  (0 < value x)%R
  /\ DenseAd.exp (storage := real_storage 2) (DenseAd.log (storage := real_storage 2) x) = x.
Proof.
  intros x.
  assert (Hpos : (0 < value x)%R) by (cbn; lra).
  split; [exact Hpos|].
  exact (exp_log_roundtrip (storage := real_storage 2) x Hpos).
Defined.

Lemma sin_cos_exp_atan_sound_witness :
  let x := mkEvaluation 2%R [# 1%R] in
  carries x 0%fin (fun s => s) 2%R
  /\ (carries (DenseAd.sin (storage := real_storage 1) x) 0%fin
        (fun s => Rtrigo_def.sin s) 2%R
      /\ carries (DenseAd.cos (storage := real_storage 1) x) 0%fin
           (fun s => Rtrigo_def.cos s) 2%R
      /\ carries (DenseAd.exp (storage := real_storage 1) x) 0%fin
           (fun s => Rtrigo_def.exp s) 2%R
      /\ carries (DenseAd.atan (storage := real_storage 1) x) 0%fin
           (fun s => Ratan.atan s) 2%R).
Proof.
  intros x. split; [exact (carries_variable 2)|].
  exact (sin_cos_exp_atan_sound (storage := real_storage 1) x 0%fin (fun s => s) 2%R
           (carries_variable 2)).
Defined.

Lemma log_sqrt_sound_witness :
  let x := mkEvaluation 2%R [# 1%R] in
  (0 < value x)%R
  /\ carries x 0%fin (fun s => s) 2%R
  /\ (carries (DenseAd.log (storage := real_storage 1) x) 0%fin (fun s => ln s) 2%R
      /\ carries (DenseAd.sqrt (storage := real_storage 1) x) 0%fin
           (fun s => R_sqrt.sqrt s) 2%R).
Proof.
  intros x.
  assert (Hpos : (0 < value x)%R) by (cbn; lra).
  split; [exact Hpos|]. split; [exact (carries_variable 2)|].
  exact (log_sqrt_sound (storage := real_storage 1) x 0%fin (fun s => s) 2%R Hpos
           (carries_variable 2)).
Defined.

Lemma tan_sound_witness :
  let x := mkEvaluation 0%R [# 1%R] in
  Rtrigo_def.cos (value x) <> 0%R
  /\ carries x 0%fin (fun s => s) 0%R
  /\ carries (DenseAd.tan (storage := real_storage 1) x) 0%fin
       (fun s => Rtrigo1.tan s) 0%R.
Proof.
  intros x.
  assert (Hcos : Rtrigo_def.cos (value x) <> 0%R) by (cbn; rewrite cos_0; lra).
  split; [exact Hcos|]. split; [exact (carries_variable 0)|].
  exact (tan_sound (storage := real_storage 1) x 0%fin (fun s => s) 0%R Hcos
           (carries_variable 0)).
Defined.

Lemma asin_acos_sound_witness :
  let x := mkEvaluation 0%R [# 1%R] in
  (-1 < value x < 1)%R
  /\ carries x 0%fin (fun s => s) 0%R
  /\ (carries (DenseAd.asin (storage := real_storage 1) x) 0%fin
        (fun s => Ratan.asin s) 0%R
      /\ carries (DenseAd.acos (storage := real_storage 1) x) 0%fin
           (fun s => Ratan.acos s) 0%R).
Proof.
  intros x.
  assert (Hrange : (-1 < value x < 1)%R) by (cbn; lra).
  split; [exact Hrange|]. split; [exact (carries_variable 0)|].
  exact (asin_acos_sound (storage := real_storage 1) x 0%fin (fun s => s) 0%R Hrange
           (carries_variable 0)).
Defined.

Lemma abs_sound_witness :
  let x := mkEvaluation (-3)%R [# 1%R] in
  value x <> 0%R
  /\ carries x 0%fin (fun s => s) (-3)%R
  /\ carries (DenseAd.abs (storage := real_storage 1) x) 0%fin (fun s => Rabs s) (-3)%R.
Proof.
  intros x.
  assert (Hnz : value x <> 0%R) by (cbn; lra).
  split; [exact Hnz|]. split; [exact (carries_variable (-3))|].
  exact (abs_sound (storage := real_storage 1) x 0%fin (fun s => s) (-3)%R Hnz
           (carries_variable (-3))).
Defined.

Lemma pow_sound_witness :
  let base := mkEvaluation 2%R [# 1%R] in
  let exp := mkEvaluation 3%R [# 0%R] in
  (0 < value base)%R
  /\ carries base 0%fin (fun s => s) 2%R
  /\ carries exp 0%fin (fun _ => 3%R) 2%R
  /\ (carries (DenseAd.pow_es (storage := real_storage 1) base 3%R) 0%fin
        (fun s => Rpower s 3) 2%R
      /\ carries (DenseAd.pow_se (storage := real_storage 1) (value base) exp) 0%fin
           (fun s => Rpower (value base) 3) 2%R
      /\ carries (DenseAd.pow (storage := real_storage 1) base exp) 0%fin
           (fun s => Rpower s 3) 2%R).
Proof.
  intros base exp.
  assert (Hpos : (0 < value base)%R) by (cbn; lra).
  split; [exact Hpos|]. split; [exact (carries_variable 2)|].
  split; [exact (carries_constant 3 2)|].
  exact (pow_sound (storage := real_storage 1) base exp 3%R 0%fin
           (fun s => s) (fun _ => 3%R) 2%R Hpos (carries_variable 2) (carries_constant 3 2)).
Defined.

Lemma atan2_sound_witness :
  let x := mkEvaluation 2%R [# 1%R] in
  let y := mkEvaluation 3%R [# 0%R] in
  (0 < value y)%R
  /\ carries x 0%fin (fun s => s) 2%R
  /\ carries y 0%fin (fun _ => 3%R) 2%R
  /\ carries (DenseAd.atan2 (storage := real_storage 1) x y) 0%fin
       (fun s => real_atan2 s 3) 2%R.
Proof.
  intros x y.
  assert (Hpos : (0 < value y)%R) by (cbn; lra).
  split; [exact Hpos|]. split; [exact (carries_variable 2)|].
  split; [exact (carries_constant 3 2)|].
  exact (atan2_sound (storage := real_storage 1) x y 0%fin
           (fun s => s) (fun _ => 3%R) 2%R Hpos (carries_variable 2) (carries_constant 3 2)).
Defined.

Lemma min_max_sound_witness :
  let x1 := mkEvaluation 2%R [# 1%R] in
  let x2 := mkEvaluation 3%R [# 0%R] in
  value x1 <> value x2
  /\ carries x1 0%fin (fun s => s) 2%R
  /\ carries x2 0%fin (fun _ => 3%R) 2%R
  /\ (carries (DenseAd.min (storage := real_storage 1) x1 x2) 0%fin
        (fun s => Rmin s 3) 2%R
      /\ carries (DenseAd.max (storage := real_storage 1) x1 x2) 0%fin
           (fun s => Rmax s 3) 2%R).
Proof.
  intros x1 x2.
  assert (Hne : value x1 <> value x2) by (cbn; lra).
  split; [exact Hne|]. split; [exact (carries_variable 2)|].
  split; [exact (carries_constant 3 2)|].
  exact (min_max_sound (storage := real_storage 1) x1 x2 0%fin
           (fun s => s) (fun _ => 3%R) 2%R Hne (carries_variable 2) (carries_constant 3 2)).
Defined.

(** ** [abs] against [fabs] on doubles *)



(** ** Constants over the reals *)

(** X21. In exact arithmetic, on the domain of each function, a constant
    operand (all derivatives zero) gives a constant result whose value is the
    plain-scalar function of the operand's value.  [sin], [cos], [atan],
    [exp], [abs], [min] and [max] do so at every constant; [tan] where the
    cosine does not vanish; [log] and [sqrt] at a positive constant; [asin]
    and [acos] strictly between [-1] and [1]; [atan2] for a second operand
    different from zero.  Outside these domains the derivative factor is
    not defined (the doubles give NaN derivatives there) and nothing is
    stated. *)
Theorem constants_stay_constant (numVars : nat) (storage : EvaluationStorage R numVars)
    (c d : R) :
  let C := createConstant (numVars := numVars) in
  (DenseAd.sin (C c) = C (Rtrigo_def.sin c)
   /\ DenseAd.cos (C c) = C (Rtrigo_def.cos c)
   /\ DenseAd.atan (C c) = C (Ratan.atan c)
   /\ DenseAd.exp (C c) = C (Rtrigo_def.exp c)
   /\ DenseAd.abs (C c) = C (Rabs c)
   /\ DenseAd.min (C c) (C d) = C (Rmin c d)
   /\ DenseAd.max (C c) (C d) = C (Rmax c d)
   /\ DenseAd.min_se c (C d) = C (Rmin c d)
   /\ DenseAd.max_se c (C d) = C (Rmax c d))
  /\ (Rtrigo_def.cos c <> 0%R -> DenseAd.tan (C c) = C (Rtrigo1.tan c))
  /\ ((0 < c)%R ->
      DenseAd.log (C c) = C (Rpower.ln c)
      /\ DenseAd.sqrt (C c) = C (R_sqrt.sqrt c))
  /\ ((-1 < c < 1)%R ->
      DenseAd.asin (C c) = C (Ratan.asin c)
      /\ DenseAd.acos (C c) = C (Ratan.acos c))
  /\ (d <> 0%R -> DenseAd.atan2 (C c) (C d) = C (real_atan2 c d)).
Proof.
  intros C. subst C.
  pose proof (unary_chain_rule_generic (createConstant (numVars := numVars) c)) as Hunary.
  cbn zeta in Hunary.
  destruct Hunary as (-> & -> & -> & -> & -> & -> & -> & -> & ->).
  rewrite atan2_generic, abs_unfold, min_unfold, max_unfold, min_se_unfold, max_se_unfold.
  unfold chain_rule, createConstant.
  cbn [value derivatives v_lt v_gt v_zero v_neg real_ops]. unfold Rltb.
  assert (Hscale : forall k : R,
            vmap (fun e : R => (k * e)%R) (vreplicate numVars 0%R) = vreplicate numVars 0%R).
  { intros k. rewrite vmap_replicate. f_equal. ring. }
  rewrite !Hscale.
  split; [|split; [|split; [|split]]].
  - repeat split.
    + destruct (Rlt_dec c 0).
      * rewrite Rabs_left by lra. f_equal. rewrite vmap_replicate. f_equal. ring.
      * rewrite Rabs_right by lra. reflexivity.
    + destruct (Rlt_dec c d); [rewrite Rmin_left | rewrite Rmin_right]; (reflexivity || lra).
    + destruct (Rlt_dec d c); [rewrite Rmax_left | rewrite Rmax_right]; (reflexivity || lra).
    + destruct (Rlt_dec c d); [rewrite Rmin_left | rewrite Rmin_right]; (reflexivity || lra).
    + destruct (Rlt_dec d c); [rewrite Rmax_left | rewrite Rmax_right]; (reflexivity || lra).
  - intros _. reflexivity.
  - intros _. split; reflexivity.
  - intros _. split; reflexivity.
  - intros Hd. f_equal. apply vec_eq. intros i.
    rewrite lookup_fun_to_vec, !vlookup_replicate.
    cbn [v_mul v_div v_sub v_add v_one real_ops]. field. split; nra.
Qed.

Lemma constants_stay_constant_witness :
  let C := createConstant (ValueType := R) (numVars := 2) in
  let c := (/ 2)%R in
  let d := 3%R in
  Rtrigo_def.cos c <> 0%R /\ (0 < c)%R /\ (-1 < c < 1)%R /\ d <> 0%R
  /\ DenseAd.tan (storage := real_storage 2) (C c) = C (Rtrigo1.tan c)
  /\ DenseAd.log (storage := real_storage 2) (C c) = C (Rpower.ln c)
  /\ DenseAd.sqrt (storage := real_storage 2) (C c) = C (R_sqrt.sqrt c)
  /\ DenseAd.asin (storage := real_storage 2) (C c) = C (Ratan.asin c)
  /\ DenseAd.acos (storage := real_storage 2) (C c) = C (Ratan.acos c)
  /\ DenseAd.atan2 (storage := real_storage 2) (C c) (C d) = C (real_atan2 c d).
Proof.
  intros C c d.
  assert (Hcos : Rtrigo_def.cos c <> 0%R).
  { apply Rgt_not_eq, cos_gt_0; subst c; pose proof PI2_1; lra. }
  assert (Hpos : (0 < c)%R) by (subst c; lra).
  assert (Hrange : (-1 < c < 1)%R) by (subst c; lra).
  assert (Hd : d <> 0%R) by (subst d; lra).
  destruct (constants_stay_constant 2 (real_storage 2) c d)
    as (_ & Htan & Hlogsqrt & Hasinacos & Hatan2).
  destruct (Hlogsqrt Hpos) as [Hlog Hsqrt].
  destruct (Hasinacos Hrange) as [Hasin Hacos].
  repeat split; try assumption; try lra.
  - exact (Htan Hcos).
  - exact (Hatan2 Hd).
Defined.

(** ** [isSame] on nested AD values *)
Section IsSameNested.
Context {ValueType Scalar : Type} {ops : ValueOps ValueType}
        {toolbox : MathToolbox.t ValueType Scalar} {numVars numOuter : nat}
        {storage : EvaluationStorage ValueType numVars}.

Lemma isSame_true {n : nat} {V : Type} {inner : MathToolbox.t V Scalar}
    (a b : Evaluation V n) (tolerance : Scalar) :
  EvaluationToolbox.isSame a b tolerance = true <->
  MathToolbox.isSame (value a) (value b) tolerance = true
  /\ forall i : fin n,
       MathToolbox.isSame (derivatives a !!! i) (derivatives b !!! i) tolerance = true.
Proof.
  unfold EvaluationToolbox.isSame.
  destruct (MathToolbox.isSame (value a) (value b) tolerance); cbn [negb].
  - rewrite isSame_derivatives_true. split.
    + intros Hall. split; [reflexivity|]. intros i. apply Hall, elem_of_enum.
    + intros [_ Hall] i _. apply Hall.
  - split; [discriminate|]. intros [? _]. discriminate.
Qed.

(** X22. For an AD value whose [ValueType] is itself an AD value, with the
    toolbox of the inner AD type as [InnerToolbox], [isSame] compares with
    the innermost [isSame] every component of both levels: the value of the
    value, its derivatives, the value of every outer derivative and the
    derivatives of every outer derivative. *)
Theorem isSame_nested (a b : Evaluation (Evaluation ValueType numVars) numOuter)
    (tolerance : Scalar) :
  EvaluationToolbox.isSame (InnerToolbox := EvaluationToolbox.toolbox) a b tolerance = true
  <->
  MathToolbox.isSame (value (value a)) (value (value b)) tolerance = true
  /\ (forall j : fin numVars,
        MathToolbox.isSame (derivatives (value a) !!! j) (derivatives (value b) !!! j)
          tolerance = true)
  /\ (forall i : fin numOuter,
        MathToolbox.isSame (value (derivatives a !!! i)) (value (derivatives b !!! i))
          tolerance = true)
  /\ (forall (i : fin numOuter) (j : fin numVars),
        MathToolbox.isSame (derivatives (derivatives a !!! i) !!! j)
          (derivatives (derivatives b !!! i) !!! j) tolerance = true).
Proof.
  rewrite (isSame_true (inner := EvaluationToolbox.toolbox) a b).
  cbn [MathToolbox.isSame EvaluationToolbox.toolbox].
  rewrite (isSame_true (value a) (value b)).
  split.
  - intros [[Hvv Hvd] Hd]. repeat split; [exact Hvv | exact Hvd | |].
    + intros i. by apply (isSame_true (derivatives a !!! i) (derivatives b !!! i)), Hd.
    + intros i. by apply (isSame_true (derivatives a !!! i) (derivatives b !!! i)), Hd.
  - intros (Hvv & Hvd & Hdv & Hdd). repeat split; [exact Hvv | exact Hvd |].
    intros i. apply (isSame_true (derivatives a !!! i) (derivatives b !!! i)).
    split; [apply Hdv | apply Hdd].
Qed.
End IsSameNested.
